(** * Cross-implementation validation of deterministic signature vectors

    A shallow embedding of [scripts/validate_rfc6979.py] and the properties
    of its validation algorithm.

    Scope of the model.
    - Test vectors are the records the JSON loader hands to the validator:
      [name], [expected.sign_bytes_hex] and, per family present in
      [expected.signatures], the three strings [private_key_hex],
      [public_key_hex] and [signature_hex].  The strings are arbitrary (they
      need not be hexadecimal).
    - The [cryptography] package is an external collaborator: its entry
      points are the fields of [CryptoProvider]; each call that can raise
      returns a [result].
    - The validators, [validate_vector] and [run] are first written on
      vectors that have every key ([Vector]), where only the body of a
      check can raise; [main_on_records] is [main] on such vectors.
    - Vectors that lack keys ([RawVector]) come next: the subscripts of the
      source raise [KeyError], inside a check or, for [vector["name"]],
      outside every [try] ([validate_raw], [run_raw]).
    - [main] and [script] are the process from the parsed arguments on:
      the import guard, the missing file, the exceptions of the load, of
      the run and of the dump, which nothing catches, and the exit status
      in each case.
    - The lines written by [print] and the validator object are modelled
      by [run_io], [main_io] and [run_method], on vectors that have every
      key.
    The layers are tied to one another by lemmas. *)

From Stdlib Require Import ZArith List String Ascii Bool Lia.
From Stdlib.Strings Require Import Byte.
From Stdlib Require DecimalString.
Import ListNotations.
Local Open Scope string_scope.
Local Open Scope Z_scope.

(** ** Python values and built-ins used by the script *)

Module Py.

(** Exceptions that reach an [except Exception] clause, with the text
    [str(e)] that an f-string prints for them. *)
Inductive exception : Type :=
| ValueError (msg : string)
| InvalidSignature
| UnsupportedAlgorithm (msg : string).

Definition str (e : exception) : string :=
  match e with
  | ValueError m => m
  | InvalidSignature => ""
  | UnsupportedAlgorithm m => m
  end.

(** A computation that returns a value or raises. *)
Definition result (A : Type) : Type := (exception + A)%type.

Definition ret {A : Type} (a : A) : result A := inr a.
Definition raise {A : Type} (e : exception) : result A := inl e.

Definition bind {A B : Type} (c : result A) (k : A -> result B) : result B :=
  match c with
  | inl e => inl e
  | inr a => k a
  end.

Definition bytes : Type := list byte.

(** [Py_ISSPACE]: space, and the control characters 9 to 13. *)
Definition isspace (c : ascii) : bool :=
  let n := N_of_ascii c in
  ((n =? 32) || ((9 <=? n) && (n <=? 13)))%N.

(** Value of a hexadecimal digit, either case. *)
Definition digit_value (c : ascii) : option N :=
  let n := N_of_ascii c in
  if ((48 <=? n) && (n <=? 57))%N then Some (n - 48)%N
  else if ((97 <=? n) && (n <=? 102))%N then Some (n - 87)%N
  else if ((65 <=? n) && (n <=? 70))%N then Some (n - 55)%N
  else None.

Definition byte_of_nibbles (top bot : N) : byte :=
  byte_of_ascii (ascii_of_N (16 * top + bot)).

(** [bytes.fromhex] on the characters of its argument: white space is
    skipped between bytes, never between the two digits of a byte. *)
Fixpoint fromhex_chars (s : string) : option bytes :=
  match s with
  | EmptyString => Some []
  | String c rest =>
      if isspace c then fromhex_chars rest
      else
        match digit_value c, rest with
        | Some top, String c' rest' =>
            match digit_value c' with
            | Some bot =>
                option_map (cons (byte_of_nibbles top bot)) (fromhex_chars rest')
            | None => None
            end
        | _, _ => None
        end
  end.

(** Position of the first character that is not ASCII, if there is one:
    [bytes.fromhex] looks for it before it decodes anything. *)
Fixpoint first_non_ascii (s : string) (pos : nat) : option nat :=
  match s with
  | EmptyString => None
  | String c rest =>
      if (128 <=? N_of_ascii c)%N then Some pos
      else first_non_ascii rest (S pos)
  end.

(** Position at which the decoding loop of [bytes.fromhex] stops on an
    ASCII string that it rejects: the character that is not a digit, or
    the length of the string when the last byte lacks its second digit. *)
Fixpoint fromhex_bad_position (s : string) (pos : nat) : nat :=
  match s with
  | EmptyString => pos
  | String c rest =>
      if isspace c then fromhex_bad_position rest (S pos)
      else
        match digit_value c, rest with
        | None, _ => pos
        | Some _, EmptyString => S pos
        | Some _, String c' rest' =>
            match digit_value c' with
            | None => S pos
            | Some _ => fromhex_bad_position rest' (S (S pos))
            end
        end
  end.

(** The [ValueError] of [bytes.fromhex], with the text of CPython 3.11:
    the position is that of the first character that is not ASCII if
    there is one, and that at which the decoding stops otherwise. *)
Definition fromhex_error (position : nat) : exception :=
  ValueError ("non-hexadecimal number found in fromhex() arg at position "
              ++ DecimalString.NilZero.string_of_uint (Nat.to_uint position)).

Definition bytes_fromhex (s : string) : result bytes :=
  match fromhex_chars s with
  | Some b => ret b
  | None =>
      raise (fromhex_error
               match first_non_ascii s 0 with
               | Some position => position
               | None => fromhex_bad_position s 0
               end)
  end.

Definition hex_digit (n : N) : ascii :=
  if (n <? 10)%N then ascii_of_N (48 + n) else ascii_of_N (87 + n).

(** [bytes.hex]: two lower-case digits per byte. *)
Fixpoint bytes_hex (b : bytes) : string :=
  match b with
  | [] => EmptyString
  | x :: b' =>
      let n := Byte.to_N x in
      String (hex_digit (n / 16)) (String (hex_digit (n mod 16)) (bytes_hex b'))
  end.

(** [int.from_bytes(b, "big")]. *)
Definition int_from_bytes_big (b : bytes) : Z :=
  fold_left (fun acc x => 256 * acc + Z.of_N (Byte.to_N x)) b 0.

(** The slice [s[:n]] of a string. *)
Definition str_prefix (n : nat) (s : string) : string := substring 0 n s.

End Py.

Import Py.

Declare Scope py_scope.
Delimit Scope py_scope with py.
Notation "x <- c ;; k" := (bind c (fun x => k))
  (at level 61, c at next level, right associativity) : py_scope.
Notation "' p <- c ;; k" := (bind c (fun x => match x with p => k end))
  (at level 61, p pattern, c at next level, right associativity) : py_scope.
Local Open Scope py_scope.

(** ** Data model *)

(** [expected.signatures.<family>] *)
Record FamilyData : Type := mkFamilyData {
  private_key_hex : string;
  public_key_hex : string;
  signature_hex : string
}.

(** [expected]: the digest and the dictionary from family key to entry. *)
Record Expected : Type := mkExpected {
  sign_bytes_hex : string;
  signatures : list (string * FamilyData)
}.

Record Vector : Type := mkVector {
  name : string;
  expected : Expected
}.

(** Dictionary access [d[k]] / [k in d] on a string-keyed dictionary. *)
Fixpoint dict_get {A : Type} (k : string) (d : list (string * A)) : option A :=
  match d with
  | [] => None
  | (k', a) :: d' => if String.eqb k k' then Some a else dict_get k d'
  end.

Inductive Family : Type := Ed25519 | Secp256k1 | Secp256r1.

Definition family_key (f : Family) : string :=
  match f with
  | Ed25519 => "ed25519"
  | Secp256k1 => "secp256k1"
  | Secp256r1 => "secp256r1"
  end.

Inductive Curve : Type := SECP256K1 | SECP256R1.

(** What a validator returns: [(None | True | False, message)]. *)
Definition CheckResult : Type := (option bool * string)%type.

Inductive Outcome : Type :=
| Valid
| Invalid (reason : string)
| Skipped (reason : string).

Definition outcome_of (r : CheckResult) : Outcome :=
  match r with
  | (Some true, _) => Valid
  | (Some false, m) => Invalid m
  | (None, m) => Skipped m
  end.

(** ** The external cryptography provider *)

Record CryptoProvider : Type := mkCryptoProvider {
  Ed25519PrivateKey : Type;
  EllipticCurvePrivateKey : Type;
  EllipticCurvePublicKey : Type;
  (** The DER signature, opaque to the script. *)
  DerSignature : Type;
  (** [Ed25519PrivateKey.from_private_bytes(seed)] *)
  from_private_bytes : bytes -> result Ed25519PrivateKey;
  (** [private_key.sign(message)] *)
  sign : Ed25519PrivateKey -> bytes -> bytes;
  (** [ec.derive_private_key(value, curve, backend)] *)
  derive_private_key : Z -> Curve -> result EllipticCurvePrivateKey;
  (** [private_key.public_key()] *)
  public_key : EllipticCurvePrivateKey -> EllipticCurvePublicKey;
  (** [utils.encode_dss_signature(r, s)] *)
  encode_dss_signature : Z -> Z -> result DerSignature;
  (** [public_key.verify(sig, digest, ec.ECDSA(Prehashed(hashes.SHA256())))] *)
  verify : EllipticCurvePublicKey -> DerSignature -> bytes -> result unit
}.

(** ** The validator *)

Definition nl : string := String (ascii_of_nat 10) EmptyString.

(** The curve orders written as literals in the two ECDSA validators. *)
Definition secp256k1_n : Z :=
  0xFFFFFFFFFFFFFFFFFFFFFFFFFFFFFFFEBAAEDCE6AF48A03BBFD25E8CD0364141.
Definition secp256r1_n : Z :=
  0xFFFFFFFF00000000FFFFFFFFFFFFFFFFBCE6FAADA7179E84F3B9CAC2FC632551.

(** [self.results] *)
Record Results : Type := mkResults {
  passed : list string;
  failed : list string;
  skipped : list string
}.

(** One entry of [results["algorithms"]]: [{"passed": ..., "message": ...}]. *)
Record AlgoResult : Type := mkAlgoResult {
  algo_passed : bool;
  algo_message : string
}.

(** What [validate_vector] returns; [algorithms] keeps insertion order. *)
Record VectorResult : Type := mkVectorResult {
  result_name : string;
  algorithms : list (string * AlgoResult)
}.

Section Validator.

Context (P : CryptoProvider).

(** *** Ed25519 *)

(** Lines 73-78: the seed taken from the private-key bytes. *)
Definition ed25519_seed (priv_key_bytes : bytes) : bytes :=
  if Nat.eqb (List.length priv_key_bytes) 64 then firstn 32 priv_key_bytes
  else priv_key_bytes.

(** Lines 73-88: [actual_sig_hex], the recomputed signature. *)
Definition ed25519_actual_sig_hex (priv_key_hex sign_bytes_hex : string)
  : result string :=
  priv_key_bytes <- bytes_fromhex priv_key_hex ;;
  let seed := ed25519_seed priv_key_bytes in
  private_key <- from_private_bytes P seed ;;
  message <- bytes_fromhex sign_bytes_hex ;;
  let signature := sign P private_key message in
  ret (bytes_hex signature).

(** The body of the [try] block of [validate_ed25519]. *)
Definition ed25519_check (vector : Vector) : result CheckResult :=
  let sigs := signatures (expected vector) in
  match dict_get "ed25519" sigs with
  | None => ret (None, "No ed25519 signature in vector")
  | Some ed25519_data =>
      let priv_key_hex := private_key_hex ed25519_data in
      let expected_sig_hex := signature_hex ed25519_data in
      let sign_bytes_hex := sign_bytes_hex (expected vector) in
      actual_sig_hex <- ed25519_actual_sig_hex priv_key_hex sign_bytes_hex ;;
      if String.eqb actual_sig_hex expected_sig_hex then
        ret (Some true,
             "Ed25519 signature matches: " ++ str_prefix 32 actual_sig_hex ++ "...")
      else
        ret (Some false,
             "Ed25519 mismatch!" ++ nl ++ "  Expected: " ++ expected_sig_hex
             ++ nl ++ "  Got:      " ++ actual_sig_hex)
  end.

Definition validate_ed25519 (vector : Vector) : CheckResult :=
  match ed25519_check vector with
  | inr r => r
  | inl e => (Some false, "Ed25519 validation error: " ++ str e)
  end.

(** *** ECDSA

    [validate_secp256k1] and [validate_secp256r1] are the same text up to
    the dictionary key (which is also the label of the messages), the
    curve object and the order literal [n]; [ecdsa_check] takes the
    three. *)

(** Lines 144-157 (211-224): the two verification attempts.  The second
    encoding happens inside the handler of the first attempt, outside the
    inner [try]: an exception it raises leaves the function's [try]. *)
Definition ecdsa_sig_verifies (n : Z) (pk : EllipticCurvePublicKey P)
    (message_hash : bytes) (expected_r expected_s : Z) : result bool :=
  expected_sig_der <- encode_dss_signature P expected_r expected_s ;;
  match verify P pk expected_sig_der message_hash with
  | inr _ => ret true
  | inl _ =>
      let alt_s := n - expected_s in
      alt_sig_der <- encode_dss_signature P expected_r alt_s ;;
      match verify P pk alt_sig_der message_hash with
      | inr _ => ret true
      | inl _ => ret false
      end
  end.

(** Lines 125-135 (192-202): the public key rebuilt from the private key
    integer, and the digest. *)
Definition ecdsa_key_and_digest (curve : Curve) (priv_key_hex
    sign_bytes_hex : string) : result (EllipticCurvePublicKey P * bytes) :=
  priv_key_bytes <- bytes_fromhex priv_key_hex ;;
  let priv_key_int := int_from_bytes_big priv_key_bytes in
  private_key <- derive_private_key P priv_key_int curve ;;
  let pk := public_key P private_key in
  message_hash <- bytes_fromhex sign_bytes_hex ;;
  ret (pk, message_hash).

(** Lines 138-140 (205-207): [R] and [S] of the claimed signature. *)
Definition ecdsa_split_signature (expected_sig_bytes : bytes) : Z * Z :=
  let expected_r := int_from_bytes_big (firstn 32 expected_sig_bytes) in
  let expected_s := int_from_bytes_big (skipn 32 expected_sig_bytes) in
  (expected_r, expected_s).

(** Lines 125-140 (192-207): key, digest and signature as decoded. *)
Definition ecdsa_decode (curve : Curve) (priv_key_hex sign_bytes_hex
    expected_sig_hex : string)
  : result (EllipticCurvePublicKey P * bytes * Z * Z) :=
  '(pk, message_hash) <-
     ecdsa_key_and_digest curve priv_key_hex sign_bytes_hex ;;
  expected_sig_bytes <- bytes_fromhex expected_sig_hex ;;
  let '(expected_r, expected_s) := ecdsa_split_signature expected_sig_bytes in
  ret (pk, message_hash, expected_r, expected_s).

(** The body of the [try] block of an ECDSA validator. *)
Definition ecdsa_check (key : string) (curve : Curve) (n : Z)
    (vector : Vector) : result CheckResult :=
  let sigs := signatures (expected vector) in
  match dict_get key sigs with
  | None => ret (None, "No " ++ key ++ " signature in vector")
  | Some secp_data =>
      let priv_key_hex := private_key_hex secp_data in
      let pub_key_hex := public_key_hex secp_data in
      let expected_sig_hex := signature_hex secp_data in
      let sign_bytes_hex := sign_bytes_hex (expected vector) in
      if String.eqb expected_sig_hex "" then
        ret (None, "Empty signature (seed derivation only)")
      else
        '(pk, message_hash, expected_r, expected_s) <-
           ecdsa_decode curve priv_key_hex sign_bytes_hex expected_sig_hex ;;
        sig_verifies <-
           ecdsa_sig_verifies n pk message_hash expected_r expected_s ;;
        if sig_verifies : bool then
          ret (Some true,
               key ++ " signature verified: " ++ str_prefix 32 expected_sig_hex
               ++ "...")
        else
          ret (Some false, key ++ " signature verification FAILED")
  end.

Definition validate_ecdsa (key : string) (curve : Curve) (n : Z)
    (vector : Vector) : CheckResult :=
  match ecdsa_check key curve n vector with
  | inr r => r
  | inl e => (Some false, key ++ " validation error: " ++ str e)
  end.

Definition validate_secp256k1 : Vector -> CheckResult :=
  validate_ecdsa "secp256k1" SECP256K1 secp256k1_n.

Definition validate_secp256r1 : Vector -> CheckResult :=
  validate_ecdsa "secp256r1" SECP256R1 secp256r1_n.

(** The check of one (vector, family) pair. *)
Definition validate (f : Family) : Vector -> CheckResult :=
  match f with
  | Ed25519 => validate_ed25519
  | Secp256k1 => validate_secp256k1
  | Secp256r1 => validate_secp256r1
  end.

(** *** Aggregation *)

(** [if result is not None: results["algorithms"][key] = {...}] *)
Definition record_algorithm (key : string) (r : CheckResult)
    (algos : list (string * AlgoResult)) : list (string * AlgoResult) :=
  match r with
  | (Some result, message) =>
      (algos ++ [(key, mkAlgoResult result message)])%list
  | (None, _) => algos
  end.

Definition validate_vector (vector : Vector) : VectorResult :=
  let name := name vector in
  let algos := [] in
  let algos := record_algorithm "ed25519" (validate_ed25519 vector) algos in
  let algos := record_algorithm "secp256k1" (validate_secp256k1 vector) algos in
  let algos := record_algorithm "secp256r1" (validate_secp256r1 vector) algos in
  mkVectorResult name algos.

(** The state of the loop of [run]: [self.results] and [all_passed]. *)
Definition RunState : Type := (Results * bool)%type.

(** The inner loop over [result["algorithms"].items()], threading
    [self.results] and [vector_passed]. *)
Fixpoint run_algorithms (name : string) (items : list (string * AlgoResult))
    (st : Results * bool) : Results * bool :=
  match items with
  | [] => st
  | (algo, algo_result) :: items' =>
      let '(res, vector_passed) := st in
      if algo_passed algo_result then
        run_algorithms name items'
          (mkResults (passed res ++ [name ++ ":" ++ algo]) (failed res)
             (skipped res), vector_passed)
      else
        run_algorithms name items'
          (mkResults (passed res) (failed res ++ [name ++ ":" ++ algo])
             (skipped res), false)
  end.

(** One iteration of the loop over [data["vectors"]]. *)
Definition run_vector (st : RunState) (vector : Vector) : RunState :=
  let '(res, all_passed) := st in
  let result := validate_vector vector in
  let name := result_name result in
  match algorithms result with
  | [] => (mkResults (passed res) (failed res) (skipped res ++ [name]),
           all_passed)
  | items =>
      let '(res', vector_passed) := run_algorithms name items (res, true) in
      (res', if negb vector_passed then false else all_passed)
  end.

Definition empty_results : Results := mkResults [] [] [].

(** [run] on the loaded [data["vectors"]], for a validator as [main]
    constructs it ([self.results] empty): the returned flag together with
    the final [self.results]. *)
Definition run (vectors : list Vector) : bool * Results :=
  let '(res, all_passed) := fold_left run_vector vectors (empty_results, true) in
  (all_passed, res).

(** [main] from line 322 on, on a vectors file that is missing ([file] is
    [None]) or loads to vectors that have every key, and with a report
    that can be opened: there nothing is raised, and the function gives
    the argument of [sys.exit] and what was dumped as JSON, if anything.
    [main], further down, is the function on every input, with the
    exceptions that leave it. *)
Definition main_on_records (file : option (list Vector))
    (json_output : option string)
  : Z * option (string * Results) :=
  match file with
  | None => (1, None)
  | Some vectors =>
      let '(success, results) := run vectors in
      let written :=
        match json_output with
        | Some path => Some (path, results)
        | None => None
        end in
      (if success then 0 else 1, written)
  end.

End Validator.

(** ** Vocabulary of the properties *)

Definition is_valid (r : CheckResult) : bool :=
  match r with (Some true, _) => true | _ => false end.
Definition is_invalid (r : CheckResult) : bool :=
  match r with (Some false, _) => true | _ => false end.
Definition is_skipped (r : CheckResult) : bool :=
  match r with (None, _) => true | _ => false end.

(** [msg] contains [sub] as a substring. *)
Definition contains (msg sub : string) : Prop :=
  exists pre post, msg = pre ++ sub ++ post.

Definition families : list Family := [Ed25519; Secp256k1; Secp256r1].

(** The identifier ["<name>:<family>"] of a (vector, family) pair. *)
Definition ident (v : Vector) (f : Family) : string :=
  name v ++ ":" ++ family_key f.

(** A string of the form ["<name>:<family>"]. *)
Definition is_identifier (x : string) : Prop :=
  exists (nm : string) (f : Family), x = nm ++ ":" ++ family_key f.

Definition results_app (a b : Results) : Results :=
  mkResults (passed a ++ passed b) (failed a ++ failed b) (skipped a ++ skipped b).

(** Two vectors that differ at most in the [public_key_hex] fields. *)
Definition same_entry_except_public_key (e e' : string * FamilyData) : Prop :=
  fst e = fst e'
  /\ private_key_hex (snd e) = private_key_hex (snd e')
  /\ signature_hex (snd e) = signature_hex (snd e').

Definition same_except_public_key (v v' : Vector) : Prop :=
  name v = name v'
  /\ sign_bytes_hex (expected v) = sign_bytes_hex (expected v')
  /\ Forall2 same_entry_except_public_key
       (signatures (expected v)) (signatures (expected v')).

(** The curve and the order literal that the validator of an ECDSA family
    uses. *)
Definition ecdsa_params (f : Family) : option (Curve * Z) :=
  match f with
  | Ed25519 => None
  | Secp256k1 => Some (SECP256K1, secp256k1_n)
  | Secp256r1 => Some (SECP256R1, secp256r1_n)
  end.

Section Vocabulary.

Context (P : CryptoProvider).

(** The signature [(r, s)] verifies for a key and a digest: it encodes,
    and the provider's [verify] returns on the encoding. *)
Definition verifies (pk : EllipticCurvePublicKey P) (digest : bytes)
    (r s : Z) : Prop :=
  exists der, encode_dss_signature P r s = inr der
              /\ exists u, verify P pk der digest = inr u.

(** The encoder accepts every pair of non-negative integers. *)
Definition encoder_total : Prop :=
  forall r s, 0 <= r -> 0 <= s ->
    exists der, encode_dss_signature P r s = inr der.

(** The claimed signature of entry [d] verifies on [curve], with [S] as
    decoded or with its complement to [n]. *)
Definition claimed_signature_verifies (curve : Curve) (n : Z) (v : Vector)
    (d : FamilyData) : Prop :=
  exists pk digest r s,
    ecdsa_decode P curve (private_key_hex d) (sign_bytes_hex (expected v))
      (signature_hex d) = inr (pk, digest, r, s)
    /\ (verifies pk digest r s \/ verifies pk digest r (n - s)).

(** What one vector adds to each list of the report. *)
Definition passed_of (v : Vector) : list string :=
  map (ident v) (filter (fun f => is_valid (validate P f v)) families).

Definition failed_of (v : Vector) : list string :=
  map (ident v) (filter (fun f => is_invalid (validate P f v)) families).

Definition all_skipped (v : Vector) : bool :=
  forallb (fun f => is_skipped (validate P f v)) families.

Definition skipped_of (v : Vector) : list string :=
  if all_skipped v then [name v] else [].

Definition no_invalid (v : Vector) : bool :=
  forallb (fun f => negb (is_invalid (validate P f v))) families.

Definition report_of (v : Vector) : Results :=
  mkResults (passed_of v) (failed_of v) (skipped_of v).

(** The (vector, family) pair has an entry in some list of the report:
    its identifier, or the bare name of its vector among the skipped. *)
Definition reported (rs : Results) (v : Vector) (f : Family) : Prop :=
  In (ident v f) (passed rs) \/ In (ident v f) (failed rs)
  \/ In (ident v f) (skipped rs) \/ In (name v) (skipped rs).

(** No outcome of the run on [vs] is missing from its report. *)
Definition no_outcome_dropped (vs : list Vector) : Prop :=
  forall v f, In v vs -> reported (snd (run P vs)) v f.

End Vocabulary.

(** Every entry of the three lists of a report is an identifier. *)
Definition only_identifiers (rs : Results) : Prop :=
  forall x, In x (passed rs ++ failed rs ++ skipped rs) -> is_identifier x.

(** ** A small provider to run the validator on

    Deterministic stand-ins with the interface of the real primitives: a
    32-byte seed requirement, a key range check, a non-negativity check in
    the encoder, and a verifier that accepts one [(r, s)] per key and
    digest. *)

Module Toy.

Definition curve_order (c : Curve) : Z :=
  match c with
  | SECP256K1 => secp256k1_n
  | SECP256R1 => secp256r1_n
  end.

Definition toy_from_private_bytes (seed : bytes) : result bytes :=
  if Nat.eqb (List.length seed) 32 then ret seed
  else raise (ValueError "An Ed25519 private key is 32 bytes long").

Definition toy_sign (seed message : bytes) : bytes :=
  firstn 64 (seed ++ message ++ repeat x00 64)%list.

Definition toy_derive_private_key (k : Z) (c : Curve) : result (Z * Curve) :=
  if k <=? 0 then raise (ValueError "private_value must be a positive integer.")
  else if k <? curve_order c then ret (k, c)
  else raise (ValueError "Invalid EC key.").

Definition toy_encode_dss_signature (r s : Z) : result (Z * Z) :=
  if (r <? 0) || (s <? 0) then
    raise (ValueError "Negative integers are not supported")
  else ret (r, s).

Definition toy_verify (pk : Z * Curve) (sig : Z * Z) (digest : bytes)
  : result unit :=
  let '(k, c) := pk in
  let '(r, s) := sig in
  if (r =? k) && (s =? (k + int_from_bytes_big digest) mod curve_order c)
  then ret tt
  else raise InvalidSignature.

Definition provider : CryptoProvider :=
  {| Ed25519PrivateKey := bytes;
     EllipticCurvePrivateKey := Z * Curve;
     EllipticCurvePublicKey := Z * Curve;
     DerSignature := Z * Z;
     from_private_bytes := toy_from_private_bytes;
     sign := toy_sign;
     derive_private_key := toy_derive_private_key;
     public_key := fun sk => sk;
     encode_dss_signature := toy_encode_dss_signature;
     verify := toy_verify |}.

End Toy.

(** ** Vectors used as examples *)

Module Examples.

(** Thirty-one zero bytes followed by the byte written [c]. *)
Definition hex32 (c : string) : string :=
  "00000000000000000000000000000000000000000000000000000000000000" ++ c.

Definition zero_digest_hex : string := hex32 "00".

Definition ecdsa_vector (key priv pub sig : string) : Vector :=
  mkVector "k" (mkExpected zero_digest_hex [(key, mkFamilyData priv pub sig)]).

Definition ed25519_vector (priv sig : string) : Vector :=
  mkVector "e" (mkExpected zero_digest_hex [("ed25519", mkFamilyData priv "" sig)]).

(** With [Toy.provider], key 1 and the zero digest: [(r, s) = (1, 1)]
    verifies. *)
Definition sig_as_given : string := hex32 "01" ++ hex32 "01".

(** [r = 1] and [s = n - 1] for the secp256k1 order. *)
Definition sig_complement : string :=
  hex32 "01" ++ "fffffffffffffffffffffffffffffffebaaedce6af48a03bbfd25e8cd0364140".

(** [r = 1] and [s = 2]. *)
Definition sig_wrong : string := hex32 "01" ++ hex32 "02".

Definition k1_as_given : Vector :=
  ecdsa_vector "secp256k1" (hex32 "01") "" sig_as_given.
Definition k1_complement : Vector :=
  ecdsa_vector "secp256k1" (hex32 "01") "" sig_complement.
Definition k1_wrong : Vector :=
  ecdsa_vector "secp256k1" (hex32 "01") "" sig_wrong.
Definition k1_other_public_key : Vector :=
  ecdsa_vector "secp256k1" (hex32 "01") "02ff" sig_as_given.

(** A one-byte claimed signature, and a 65-byte one: [r = 1] on 32
    bytes, then [s = 1] on 33 bytes. *)
Definition k1_short : Vector :=
  ecdsa_vector "secp256k1" (hex32 "01") "" "01".
Definition sig_65_bytes : string := hex32 "01" ++ "00" ++ hex32 "01".
Definition k1_long : Vector :=
  ecdsa_vector "secp256k1" (hex32 "01") "" sig_65_bytes.
Definition k1_bad_key : Vector :=
  ecdsa_vector "secp256k1" (hex32 "00") "" sig_as_given.

(** The signature [Toy.provider] computes for seed [00..07] and the zero
    digest. *)
Definition ed_sig : string := hex32 "07" ++ zero_digest_hex.

Definition one32 : bytes := (repeat x00 31 ++ [x01])%list.
Definition seed07 : bytes := (repeat x00 31 ++ [x07])%list.
Definition tail09 : bytes := (repeat x00 31 ++ [x09])%list.

Definition ed_seed32 : Vector := ed25519_vector (hex32 "07") ed_sig.
Definition ed_seed64 : Vector :=
  ed25519_vector (hex32 "07" ++ hex32 "09") ed_sig.
Definition ed_mismatch : Vector := ed25519_vector (hex32 "07") zero_digest_hex.
Definition ed_bad_hex : Vector := ed25519_vector "0g" ed_sig.
Definition ed_short_seed : Vector := ed25519_vector "07" ed_sig.

(** An Ed25519 entry with an empty claimed signature. *)
Definition ed_empty_signature : Vector := ed25519_vector (hex32 "07") "".

(** A vector without any family. *)
Definition no_family : Vector := mkVector "v" (mkExpected zero_digest_hex []).

End Examples.

(** ** The validator object, its console output and the script

    [run] and [main_on_records] above keep the result lists, the flag and
    the exit code.  The definitions below add what they leave out: the
    validator object whose [self.results] the method [run] appends to and
    the lines written by [print] (one string per call).  Like them, they
    are defined on vectors that have every key, on which [run] returns;
    the process as a whole, where an exception can leave [main], comes
    with the vectors that lack keys. *)

(** [str(n)] for a length. *)
Definition str_of_nat (n : nat) : string :=
  DecimalString.NilZero.string_of_uint (Nat.to_uint n).

(** [s * n] on strings. *)
Fixpoint str_repeat (s : string) (n : nat) : string :=
  match n with
  | O => EmptyString
  | S n' => s ++ str_repeat s n'
  end.

(** [print(line)]: the output so far, then the line. *)
Definition print (line : string) (out : list string) : list string :=
  (out ++ [line])%list.

(** The object state of [RFC6979Validator]. *)
Record RFC6979Validator : Type := mkValidator {
  vectors_file : string;
  results : Results
}.

(** [__init__] *)
Definition new_validator (vectors_file : string) : RFC6979Validator :=
  mkValidator vectors_file (mkResults [] [] []).

Section Console.

Context (P : CryptoProvider).

(** The method [run] on a validator in any state: [self.results] is
    appended to, never reset; [all_passed] starts at [True]. *)
Definition run_method (self : RFC6979Validator) (vectors : list Vector)
  : bool * RFC6979Validator :=
  let '(res, all_passed) :=
    fold_left (run_vector P) vectors (results self, true) in
  (all_passed, mkValidator (vectors_file self) res).

(** The inner loop of [run] with its [print] calls. *)
Fixpoint run_algorithms_io (name : string) (items : list (string * AlgoResult))
    (res : Results) (out : list string) (vector_passed : bool)
  : Results * list string * bool :=
  match items with
  | [] => (res, out, vector_passed)
  | (algo, algo_result) :: items' =>
      if algo_passed algo_result then
        let out := print ("  PASS: " ++ name ++ " [" ++ algo ++ "]") out in
        let res := mkResults (passed res ++ [name ++ ":" ++ algo]) (failed res)
                     (skipped res) in
        run_algorithms_io name items' res out vector_passed
      else
        let out := print ("  FAIL: " ++ name ++ " [" ++ algo ++ "]") out in
        let out := print ("        " ++ algo_message algo_result) out in
        let res := mkResults (passed res) (failed res ++ [name ++ ":" ++ algo])
                     (skipped res) in
        run_algorithms_io name items' res out false
  end.

(** One iteration of the loop of [run] with its [print] calls. *)
Definition run_vector_io (st : Results * list string * bool) (vector : Vector)
  : Results * list string * bool :=
  let '(res, out, all_passed) := st in
  let result := validate_vector P vector in
  let name := result_name result in
  match algorithms result with
  | [] =>
      let out := print ("  SKIP: " ++ name ++ " (no supported algorithms)") out in
      (mkResults (passed res) (failed res) (skipped res ++ [name]), out,
       all_passed)
  | items =>
      let '(res', out', vector_passed) :=
        run_algorithms_io name items res out true in
      (res', out', if negb vector_passed then false else all_passed)
  end.

(** Lines 288-299: the summary. *)
Definition print_summary (res : Results) (out : list string) : list string :=
  let out := print (nl ++ str_repeat "=" 60) out in
  let out := print "SUMMARY" out in
  let out := print (str_repeat "=" 60) out in
  let out := print ("  Passed:  " ++ str_of_nat (List.length (passed res))) out in
  let out := print ("  Failed:  " ++ str_of_nat (List.length (failed res))) out in
  let out := print ("  Skipped: " ++ str_of_nat (List.length (skipped res))) out in
  match failed res with
  | [] => out
  | _ =>
      let out := print (nl ++ "Failed tests:") out in
      fold_left (fun out name => print ("  - " ++ name) out) (failed res) out
  end.

(** The method [run] with its [print] calls, on the loaded
    [data["vectors"]]; [out] is what the process has printed so far. *)
Definition run_io (self : RFC6979Validator) (vectors : list Vector)
    (out : list string) : bool * RFC6979Validator * list string :=
  let out := print ("Loading vectors from: " ++ vectors_file self) out in
  let out :=
    print ("Validating " ++ str_of_nat (List.length vectors)
           ++ " test vectors..." ++ nl) out in
  let '(res, out, all_passed) :=
    fold_left run_vector_io vectors (results self, out, true) in
  let out := print_summary res out in
  (all_passed, mkValidator (vectors_file self) res, out).

(** What the process leaves behind: exit code, lines printed, and the JSON
    file written, if any. *)
Record ProcessResult : Type := mkProcessResult {
  exit_code : Z;
  printed : list string;
  json_written : option (string * Results)
}.

(** [main_on_records] with the [print] calls of [main]: [path] is
    [args.vectors_file], [file] is [None] when that path does not exist and
    the loaded vectors, which have every key, otherwise. *)
Definition main_io (path : string) (file : option (list Vector))
    (json_output : option string) : ProcessResult :=
  match file with
  | None =>
      mkProcessResult 1 (print ("ERROR: Vectors file not found: " ++ path) [])
        None
  | Some vectors =>
      let validator := new_validator path in
      let '(success, validator, out) := run_io validator vectors [] in
      match json_output with
      | Some json_path =>
          let out := print (nl ++ "Results written to: " ++ json_path) out in
          mkProcessResult (if success then 0 else 1) out
            (Some (json_path, results validator))
      | None => mkProcessResult (if success then 0 else 1) out None
      end
  end.

End Console.

(** ** Vectors with missing keys

    The records above have every key.  A JSON object may lack any of them;
    the subscript [d[k]] then raises [KeyError].  Below, each key of a
    vector is optional and the validators are written with the subscripts
    of the source, in the order of the source; the values that are present
    have the types of the input format. *)

Inductive RawException : Type :=
| KeyError (key : string)
| OSError (msg : string)
| Raised (e : exception).

(** [str(e)]: a [KeyError] prints its key between quotes. *)
Definition raw_str (e : RawException) : string :=
  match e with
  | KeyError key => "'" ++ key ++ "'"
  | OSError msg => msg
  | Raised e => str e
  end.

Definition RawResult (A : Type) : Type := (RawException + A)%type.

Definition raw_bind {A B : Type} (c : RawResult A) (k : A -> RawResult B)
  : RawResult B :=
  match c with
  | inl e => inl e
  | inr a => k a
  end.

Notation "x <~ c ;; k" := (raw_bind c (fun x => k))
  (at level 61, c at next level, right associativity) : py_scope.

(** A computation of the records' validators, inside one on raw vectors. *)
Definition lift {A : Type} (c : result A) : RawResult A :=
  match c with
  | inl e => inl (Raised e)
  | inr a => inr a
  end.

(** The subscript [d[key]] on a record whose field may be absent. *)
Definition getitem {A : Type} (key : string) (field : option A) : RawResult A :=
  match field with
  | Some a => inr a
  | None => inl (KeyError key)
  end.

Record RawFamilyData : Type := mkRawFamilyData {
  raw_private_key_hex : option string;
  raw_public_key_hex : option string;
  raw_signature_hex : option string
}.

Record RawExpected : Type := mkRawExpected {
  raw_sign_bytes_hex : option string;
  raw_signatures : option (list (string * RawFamilyData))
}.

Record RawVector : Type := mkRawVector {
  raw_name : option string;
  raw_expected : option RawExpected
}.

(** A vector that has every key. *)
Definition to_raw_family (d : FamilyData) : RawFamilyData :=
  mkRawFamilyData (Some (private_key_hex d)) (Some (public_key_hex d))
    (Some (signature_hex d)).

Definition to_raw (v : Vector) : RawVector :=
  mkRawVector (Some (name v))
    (Some (mkRawExpected (Some (sign_bytes_hex (expected v)))
             (Some (map (fun e => (fst e, to_raw_family (snd e)))
                      (signatures (expected v)))))).

Section RawValidator.

Context (P : CryptoProvider).

(** The body of the [try] block of [validate_ed25519] (lines 62-92). *)
Definition ed25519_check_raw (vector : RawVector) : RawResult CheckResult :=
  expected <~ getitem "expected" (raw_expected vector) ;;
  sigs <~ getitem "signatures" (raw_signatures expected) ;;
  match dict_get "ed25519" sigs with
  | None => inr (None, "No ed25519 signature in vector")
  | Some ed25519_data =>
      priv_key_hex <~
        getitem "private_key_hex" (raw_private_key_hex ed25519_data) ;;
      expected_sig_hex <~
        getitem "signature_hex" (raw_signature_hex ed25519_data) ;;
      expected' <~ getitem "expected" (raw_expected vector) ;;
      sign_bytes_hex <~ getitem "sign_bytes_hex" (raw_sign_bytes_hex expected') ;;
      actual_sig_hex <~ lift (ed25519_actual_sig_hex P priv_key_hex sign_bytes_hex) ;;
      if String.eqb actual_sig_hex expected_sig_hex then
        inr (Some true,
             "Ed25519 signature matches: " ++ str_prefix 32 actual_sig_hex ++ "...")
      else
        inr (Some false,
             "Ed25519 mismatch!" ++ nl ++ "  Expected: " ++ expected_sig_hex
             ++ nl ++ "  Got:      " ++ actual_sig_hex)
  end.

Definition validate_ed25519_raw (vector : RawVector) : CheckResult :=
  match ed25519_check_raw vector with
  | inr r => r
  | inl e => (Some false, "Ed25519 validation error: " ++ raw_str e)
  end.

(** The body of the [try] block of an ECDSA validator (lines 111-162 and
    178-229). *)
Definition ecdsa_check_raw (key : string) (curve : Curve) (n : Z)
    (vector : RawVector) : RawResult CheckResult :=
  expected <~ getitem "expected" (raw_expected vector) ;;
  sigs <~ getitem "signatures" (raw_signatures expected) ;;
  match dict_get key sigs with
  | None => inr (None, "No " ++ key ++ " signature in vector")
  | Some secp_data =>
      priv_key_hex <~ getitem "private_key_hex" (raw_private_key_hex secp_data) ;;
      pub_key_hex <~ getitem "public_key_hex" (raw_public_key_hex secp_data) ;;
      expected_sig_hex <~ getitem "signature_hex" (raw_signature_hex secp_data) ;;
      expected' <~ getitem "expected" (raw_expected vector) ;;
      sign_bytes_hex <~ getitem "sign_bytes_hex" (raw_sign_bytes_hex expected') ;;
      if String.eqb expected_sig_hex "" then
        inr (None, "Empty signature (seed derivation only)")
      else
        decoded <~
          lift (ecdsa_decode P curve priv_key_hex sign_bytes_hex expected_sig_hex) ;;
        let '(pk, message_hash, expected_r, expected_s) := decoded in
        sig_verifies <~
          lift (ecdsa_sig_verifies P n pk message_hash expected_r expected_s) ;;
        if sig_verifies : bool then
          inr (Some true,
               key ++ " signature verified: " ++ str_prefix 32 expected_sig_hex
               ++ "...")
        else
          inr (Some false, key ++ " signature verification FAILED")
  end.

Definition validate_ecdsa_raw (key : string) (curve : Curve) (n : Z)
    (vector : RawVector) : CheckResult :=
  match ecdsa_check_raw key curve n vector with
  | inr r => r
  | inl e => (Some false, key ++ " validation error: " ++ raw_str e)
  end.

Definition validate_secp256k1_raw : RawVector -> CheckResult :=
  validate_ecdsa_raw "secp256k1" SECP256K1 secp256k1_n.

Definition validate_secp256r1_raw : RawVector -> CheckResult :=
  validate_ecdsa_raw "secp256r1" SECP256R1 secp256r1_n.

Definition validate_raw (f : Family) : RawVector -> CheckResult :=
  match f with
  | Ed25519 => validate_ed25519_raw
  | Secp256k1 => validate_secp256k1_raw
  | Secp256r1 => validate_secp256r1_raw
  end.

(** [validate_vector]: [vector["name"]] is read first, outside any [try]. *)
Definition validate_vector_raw (vector : RawVector) : RawResult VectorResult :=
  name <~ getitem "name" (raw_name vector) ;;
  let algos := [] in
  let algos := record_algorithm "ed25519" (validate_ed25519_raw vector) algos in
  let algos := record_algorithm "secp256k1" (validate_secp256k1_raw vector) algos in
  let algos := record_algorithm "secp256r1" (validate_secp256r1_raw vector) algos in
  inr (mkVectorResult name algos).

(** One iteration of the loop of [run], given the result of
    [validate_vector]. *)
Definition run_result (st : RunState) (result : VectorResult) : RunState :=
  let '(res, all_passed) := st in
  let name := result_name result in
  match algorithms result with
  | [] => (mkResults (passed res) (failed res) (skipped res ++ [name]),
           all_passed)
  | items =>
      let '(res', vector_passed) := run_algorithms name items (res, true) in
      (res', if negb vector_passed then false else all_passed)
  end.

(** The loop of [run]: an exception of [validate_vector] leaves it. *)
Fixpoint run_loop_raw (vectors : list RawVector) (st : RunState)
  : RawResult RunState :=
  match vectors with
  | [] => inr st
  | vector :: vectors' =>
      result <~ validate_vector_raw vector ;;
      run_loop_raw vectors' (run_result st result)
  end.

(** [run] for a validator as [main] constructs it: the flag and the final
    [self.results], or the exception that leaves the method. *)
Definition run_raw (vectors : list RawVector) : RawResult (bool * Results) :=
  st <~ run_loop_raw vectors (empty_results, true) ;;
  let '(res, all_passed) := st in
  inr (all_passed, res).

(** [main] from the call of [run] on, on a file that loads to [vectors]
    and with a report that can be opened: an exception of [run] is not
    caught; no report is written and no [sys.exit] is reached. *)
Definition main_raw (file : option (list RawVector)) (json_output : option string)
  : RawResult (Z * option (string * Results)) :=
  match file with
  | None => inr (1, None)
  | Some vectors =>
      r <~ run_raw vectors ;;
      let '(success, results) := r in
      let written :=
        match json_output with
        | Some path => Some (path, results)
        | None => None
        end in
      inr (if success then 0 else 1, written)
  end.

End RawValidator.

(** ** The process

    [main] has no [try]: an exception that leaves [run] (a vector without
    a name, a file that cannot be loaded) or the dump of the report leaves
    [main] too, and the interpreter ends the process with a traceback and
    the status 1. *)

(** What [load_vectors] gives for a path that exists: the exception of
    [open] or [json.load], or the loaded object, given by the value of its
    key ["vectors"] if it has one. *)
Definition LoadResult : Type := RawResult (option (list RawVector)).

Section Process.

Context (P : CryptoProvider).

(** [run] from its first line (259-301): the load, [data["vectors"]], then
    the loop. *)
Definition run_loaded (load : LoadResult) : RawResult (bool * Results) :=
  data <~ load ;;
  vectors <~ getitem "vectors" data ;;
  run_raw P vectors.

(** [main] from line 322 on, with the arguments as [parse_args] returned
    them: [file] is [None] when [args.vectors_file] does not exist and what
    [load_vectors] gives otherwise; [json_output] is [args.json_output];
    [open_error] is what [open(args.json_output, "w")] raises, if it
    raises.  The result is the argument of [sys.exit] with the report
    written, or the exception that leaves [main]: nothing in [main]
    catches one. *)
Definition main (file : option LoadResult) (json_output : option string)
    (open_error : option RawException)
  : RawResult (Z * option (string * Results)) :=
  match file with
  | None => inr (1, None)
  | Some load =>
      r <~ run_loaded load ;;
      let '(success, results) := r in
      match json_output with
      | Some path =>
          match open_error with
          | Some e => inl e
          | None => inr (if success then 0 else 1, Some (path, results))
          end
      | None => inr (if success then 0 else 1, None)
      end
  end.

End Process.




(** ** Vocabulary of the properties of runs on raw vectors *)


Section RawVocabulary.

Context (P : CryptoProvider).









End RawVocabulary.

(** ** Vocabulary of the properties of the console output *)

(** The lines of the summary for the final [self.results]. *)
Definition summary_lines (res : Results) : list string :=
  [nl ++ str_repeat "=" 60;
   "SUMMARY";
   str_repeat "=" 60;
   "  Passed:  " ++ str_of_nat (List.length (passed res));
   "  Failed:  " ++ str_of_nat (List.length (failed res));
   "  Skipped: " ++ str_of_nat (List.length (skipped res))]
  ++ match failed res with
     | [] => []
     | _ => (nl ++ "Failed tests:") :: map (fun name => "  - " ++ name) (failed res)
     end.

(** The two lines printed before the loop. *)
Definition header_lines (path : string) (n : nat) : list string :=
  ["Loading vectors from: " ++ path;
   "Validating " ++ str_of_nat n ++ " test vectors..." ++ nl].

Definition pass_line (v : Vector) (f : Family) : string :=
  "  PASS: " ++ name v ++ " [" ++ family_key f ++ "]".

Definition fail_line (v : Vector) (f : Family) : string :=
  "  FAIL: " ++ name v ++ " [" ++ family_key f ++ "]".

Definition message_line (m : string) : string := "        " ++ m.

Definition skip_line (v : Vector) : string :=
  "  SKIP: " ++ name v ++ " (no supported algorithms)".

Section ConsoleVocabulary.

Context (P : CryptoProvider).

(** The lines that the check of one family of a vector leaves in the
    output of a vector that is not skipped as a whole. *)
Definition check_lines (v : Vector) (f : Family) : list string :=
  match validate P f v with
  | (Some true, _) => [pass_line v f]
  | (Some false, m) => [fail_line v f; message_line m]
  | (None, _) => []
  end.

(** The lines that one vector leaves in the output. *)
Definition vector_lines (v : Vector) : list string :=
  if all_skipped P v then [skip_line v]
  else flat_map (check_lines v) families.

End ConsoleVocabulary.

(** ** More vocabulary and examples *)

(** Lines 73-85: the recomputed signature, as bytes. *)
Definition ed25519_signature (P : CryptoProvider)
    (priv_key_hex sign_bytes_hex : string) : result bytes :=
  priv_key_bytes <- bytes_fromhex priv_key_hex ;;
  let seed := ed25519_seed priv_key_bytes in
  private_key <- from_private_bytes P seed ;;
  message <- bytes_fromhex sign_bytes_hex ;;
  ret (sign P private_key message).

(** The provider refuses a seed that is not 32 bytes long. *)
Definition seed_length_checked (P : CryptoProvider) : Prop :=
  forall seed, List.length seed <> 32%nat ->
    exists e, from_private_bytes P seed = inl e.

(** The encoder refuses a negative [s]. *)
Definition encoder_rejects_negative (P : CryptoProvider) : Prop :=
  forall r s, s < 0 -> exists e, encode_dss_signature P r s = inl e.

Module MoreExamples.

(** [Examples.sig_complement] in upper case, with a space between [R] and
    [S]. *)
Definition sig_complement_upper : string :=
  Examples.hex32 "01" ++ " "
  ++ "FFFFFFFFFFFFFFFFFFFFFFFFFFFFFFFEBAAEDCE6AF48A03BBFD25E8CD0364140".

Definition k1_complement_upper : Vector :=
  Examples.ecdsa_vector "secp256k1" (Examples.hex32 "01") "" sig_complement_upper.

(** The private key 1 written on one byte. *)
Definition k1_short_key : Vector :=
  Examples.ecdsa_vector "secp256k1" "01" "" Examples.sig_as_given.

(** [r = 1] and [s] on 33 bytes [ff], above the order. *)
Definition sig_large_s : string :=
  Examples.hex32 "01"
  ++ "ffffffffffffffffffffffffffffffffffffffffffffffffffffffffffffffffff".

Definition k1_large_s : Vector :=
  Examples.ecdsa_vector "secp256k1" (Examples.hex32 "01") "" sig_large_s.

(** An Ed25519 entry whose claimed signature is the recomputed one in
    upper case (the seed ends in [0a]). *)
Definition ed_lower : Vector :=
  Examples.ed25519_vector (Examples.hex32 "0a")
    (Examples.hex32 "0a" ++ Examples.zero_digest_hex).
Definition ed_upper : Vector :=
  Examples.ed25519_vector (Examples.hex32 "0a")
    (Examples.hex32 "0A" ++ Examples.zero_digest_hex).

End MoreExamples.

(** The label that starts the messages of a validator. *)
Definition family_label (f : Family) : string :=
  match f with
  | Ed25519 => "Ed25519"
  | Secp256k1 => "secp256k1"
  | Secp256r1 => "secp256r1"
  end.

(** The vector with the [public_key_hex] field of every entry replaced:
    [g] maps the family key and the old field, present or not, to the new
    one. *)
Definition set_public_keys (g : string -> option string -> option string)
    (v : RawVector) : RawVector :=
  let set_entry (e : string * RawFamilyData) :=
    (fst e,
     mkRawFamilyData (raw_private_key_hex (snd e))
       (g (fst e) (raw_public_key_hex (snd e)))
       (raw_signature_hex (snd e))) in
  mkRawVector (raw_name v)
    (option_map
       (fun e => mkRawExpected (raw_sign_bytes_hex e)
                   (option_map (map set_entry) (raw_signatures e)))
       (raw_expected v)).

Module RawExamples.

(** A vector with a name and nothing else. *)
Definition only_name : RawVector := mkRawVector (Some "n") None.


(** A secp256k1 entry without [public_key_hex], with an empty signature. *)
Definition k1_without_public_key : RawVector :=
  mkRawVector (Some "k")
    (Some (mkRawExpected (Some Examples.zero_digest_hex)
             (Some [("secp256k1",
                     mkRawFamilyData (Some (Examples.hex32 "01")) None (Some ""))]))).

End RawExamples.

(** ** Facts about the Python built-ins *)

Lemma int_from_bytes_big_nonneg (b : bytes) : 0 <= int_from_bytes_big b.
Proof.
  unfold int_from_bytes_big.
  assert (H : forall acc, 0 <= acc ->
            0 <= fold_left (fun a x => 256 * a + Z.of_N (Byte.to_N x)) b acc).
  { induction b as [|x b IH]; intros acc Hacc; cbn [fold_left]; [exact Hacc|].
    apply IH. pose proof (N2Z.is_nonneg (Byte.to_N x)). lia. }
  apply H. lia.
Qed.

Lemma eqb_empty_false (s : string) : s <> "" -> String.eqb s "" = false.
Proof.
  intros H. destruct (String.eqb s "") eqn:E; [|reflexivity].
  apply String.eqb_eq in E. contradiction.
Qed.

Lemma contains_intro (pre sub post : string) : contains (pre ++ sub ++ post) sub.
Proof. exists pre, post. reflexivity. Qed.

Lemma append_assoc (a b c : string) : (a ++ b) ++ c = a ++ b ++ c.
Proof. induction a as [|x a IH]; cbn; [reflexivity | now rewrite IH]. Qed.

Lemma append_empty_r (a : string) : a ++ "" = a.
Proof. induction a as [|x a IH]; cbn; [reflexivity | now rewrite IH]. Qed.

Lemma append_length (a b : string) :
  String.length (a ++ b) = (String.length a + String.length b)%nat.
Proof. induction a as [|x a IH]; cbn; [reflexivity | now rewrite IH]. Qed.

Lemma contains_length (msg sub : string) :
  contains msg sub -> (String.length sub <= String.length msg)%nat.
Proof.
  intros (pre & post & ->). rewrite !append_length. lia.
Qed.

(** ** Facts about the ECDSA validators *)

Section EcdsaFacts.

Context (P : CryptoProvider).

Lemma ecdsa_decode_nonneg curve kh dh sh pk digest r s :
  ecdsa_decode P curve kh dh sh = inr (pk, digest, r, s) -> 0 <= r /\ 0 <= s.
Proof.
  unfold ecdsa_decode, ecdsa_key_and_digest, ecdsa_split_signature, bind, ret.
  destruct (bytes_fromhex kh); [discriminate|].
  destruct (derive_private_key P _ curve); [discriminate|].
  destruct (bytes_fromhex dh); [discriminate|].
  destruct (bytes_fromhex sh); [discriminate|].
  intros H; inversion H; subst. split; apply int_from_bytes_big_nonneg.
Qed.

(** The two attempts succeed exactly when the first encoding succeeds
    and one of the two signatures verifies. *)
Lemma ecdsa_sig_verifies_true n pk digest r s :
  ecdsa_sig_verifies P n pk digest r s = inr true <->
  (exists der, encode_dss_signature P r s = inr der) /\
  (verifies P pk digest r s \/ verifies P pk digest r (n - s)).
Proof.
  unfold ecdsa_sig_verifies, verifies, bind, ret.
  destruct (encode_dss_signature P r s) as [e|der] eqn:E1.
  - split; [discriminate|]. intros [[d Hd] _]; discriminate.
  - destruct (verify P pk der digest) as [e1|u1] eqn:V1.
    + destruct (encode_dss_signature P r (n - s)) as [e2|der2] eqn:E2.
      * split; [discriminate|]. intros [_ [[d [Hd [u Hu]]]|[d [Hd _]]]].
        -- inversion Hd; subst. congruence.
        -- discriminate.
      * destruct (verify P pk der2 digest) as [e3|u3] eqn:V2.
        -- split; [discriminate|].
           intros [_ [[d [Hd [u Hu]]]|[d [Hd [u Hu]]]]];
             inversion Hd; subst; congruence.
        -- split; [|reflexivity]. intros _. split; [eauto|].
           right. exists der2. split; [reflexivity|eauto].
    + split; [|reflexivity]. intros _. split; [eauto|].
      left. exists der. split; [reflexivity|eauto].
Qed.

(** The validator on an entry with a non-empty claimed signature. *)
Lemma validate_ecdsa_present key curve n v d :
  dict_get key (signatures (expected v)) = Some d ->
  signature_hex d <> "" ->
  validate_ecdsa P key curve n v =
    match
      ('(pk, digest, r, s) <-
         ecdsa_decode P curve (private_key_hex d) (sign_bytes_hex (expected v))
           (signature_hex d) ;;
       ecdsa_sig_verifies P n pk digest r s)
    with
    | inr true =>
        (Some true,
         key ++ " signature verified: " ++ str_prefix 32 (signature_hex d) ++ "...")
    | inr false => (Some false, key ++ " signature verification FAILED")
    | inl e => (Some false, key ++ " validation error: " ++ str e)
    end.
Proof.
  intros Hd Hne. unfold validate_ecdsa, ecdsa_check. rewrite Hd.
  rewrite (eqb_empty_false _ Hne). unfold bind, ret.
  destruct (ecdsa_decode P curve _ _ _) as [e|[[[pk digest] r] s]]; [reflexivity|].
  destruct (ecdsa_sig_verifies P n pk digest r s) as [e|[|]]; reflexivity.
Qed.

Lemma validate_ecdsa_valid_iff key curve n v d :
  encoder_total P ->
  dict_get key (signatures (expected v)) = Some d ->
  signature_hex d <> "" ->
  (outcome_of (validate_ecdsa P key curve n v) = Valid <->
     claimed_signature_verifies P curve n v d)
  /\ (~ claimed_signature_verifies P curve n v d ->
      exists m, outcome_of (validate_ecdsa P key curve n v) = Invalid m).
Proof.
  intros Henc Hd Hne. rewrite (validate_ecdsa_present key curve n v d Hd Hne).
  unfold claimed_signature_verifies, bind.
  destruct (ecdsa_decode P curve _ _ _) as [e|[[[pk digest] r] s]] eqn:D.
  - cbn. split.
    + split; [discriminate|]. intros (pk & dg & r & s & H & _). discriminate.
    + intros _. eauto.
  - destruct (ecdsa_decode_nonneg _ _ _ _ _ _ _ _ D) as [Hr Hs].
    pose proof (ecdsa_sig_verifies_true n pk digest r s) as Hv.
    destruct (ecdsa_sig_verifies P n pk digest r s) as [e|[|]]; cbn.
    + split.
      * split; [discriminate|]. intros (pk' & dg & r' & s' & H & Hor).
        inversion H; subst. destruct Hv as [_ Hv].
        specialize (Hv (conj (Henc _ _ Hr Hs) Hor)). discriminate.
      * intros _. eauto.
    + split.
      * split; [|reflexivity]. intros _. exists pk, digest, r, s.
        split; [reflexivity|]. apply Hv. reflexivity.
      * intros Hn. exfalso. apply Hn. exists pk, digest, r, s.
        split; [reflexivity|]. apply Hv. reflexivity.
    + split.
      * split; [discriminate|]. intros (pk' & dg & r' & s' & H & Hor).
        inversion H; subst. destruct Hv as [_ Hv].
        specialize (Hv (conj (Henc _ _ Hr Hs) Hor)). discriminate.
      * intros _. eauto.
Qed.

Lemma validate_ecdsa_family f curve n :
  ecdsa_params f = Some (curve, n) ->
  validate P f = validate_ecdsa P (family_key f) curve n.
Proof.
  destruct f; cbn; intros H; inversion H; subst; reflexivity.
Qed.

End EcdsaFacts.

Lemma toy_encoder_total : encoder_total Toy.provider.
Proof.
  intros r s Hr Hs. cbn. unfold Toy.toy_encode_dss_signature.
  destruct (r <? 0) eqn:E1; [apply Z.ltb_lt in E1; lia|].
  destruct (s <? 0) eqn:E2; [apply Z.ltb_lt in E2; lia|].
  cbn. eauto.
Qed.

(** C1. For each ECDSA family and each vector whose entry for the family
    has a non-empty claimed signature, the outcome is Valid exactly when
    the claimed signature verifies with [S] as decoded or with [n - S],
    [n] being the order literal of that family; when neither verifies the
    outcome is Invalid.  The two order literals differ. *)
Theorem ecdsa_valid_iff_given_or_complement_verifies (P : CryptoProvider) :
  encoder_total P ->
  secp256k1_n <> secp256r1_n /\
  forall f curve n v d,
    ecdsa_params f = Some (curve, n) ->
    dict_get (family_key f) (signatures (expected v)) = Some d ->
    signature_hex d <> "" ->
    (outcome_of (validate P f v) = Valid <->
       claimed_signature_verifies P curve n v d)
    /\ (~ claimed_signature_verifies P curve n v d ->
        exists m, outcome_of (validate P f v) = Invalid m).
Proof.
  intros Henc. split; [discriminate|].
  intros f curve n v d Hf Hd Hne.
  rewrite (validate_ecdsa_family P f curve n Hf).
  now apply validate_ecdsa_valid_iff.
Qed.

Lemma ecdsa_valid_iff_given_or_complement_verifies_witness :
  encoder_total Toy.provider
  /\ ecdsa_params Secp256k1 = Some (SECP256K1, secp256k1_n)
  /\ dict_get (family_key Secp256k1)
       (signatures (expected Examples.k1_complement))
     = Some (mkFamilyData (Examples.hex32 "01") "" Examples.sig_complement)
  /\ Examples.sig_complement <> ""
  /\ (outcome_of (validate Toy.provider Secp256k1 Examples.k1_complement) = Valid
      <-> claimed_signature_verifies Toy.provider SECP256K1 secp256k1_n
            Examples.k1_complement
            (mkFamilyData (Examples.hex32 "01") "" Examples.sig_complement)).
Proof.
  split; [exact toy_encoder_total|].
  split; [reflexivity|]. split; [reflexivity|]. split; [discriminate|].
  apply (ecdsa_valid_iff_given_or_complement_verifies Toy.provider
           toy_encoder_total).
  - reflexivity.
  - reflexivity.
  - discriminate.
Defined.

(** ** Facts about the Ed25519 validator *)

Section Ed25519Facts.

Context (P : CryptoProvider).

(** The validator on a vector that has the family. *)
Lemma validate_ed25519_present v d :
  dict_get "ed25519" (signatures (expected v)) = Some d ->
  validate_ed25519 P v =
    match ed25519_actual_sig_hex P (private_key_hex d)
            (sign_bytes_hex (expected v)) with
    | inr actual =>
        if String.eqb actual (signature_hex d) then
          (Some true, "Ed25519 signature matches: " ++ str_prefix 32 actual ++ "...")
        else
          (Some false,
           "Ed25519 mismatch!" ++ nl ++ "  Expected: " ++ signature_hex d
           ++ nl ++ "  Got:      " ++ actual)
    | inl e => (Some false, "Ed25519 validation error: " ++ str e)
    end.
Proof.
  intros Hd. unfold validate_ed25519, ed25519_check. rewrite Hd.
  unfold bind, ret.
  destruct (ed25519_actual_sig_hex P _ _) as [e|actual]; [reflexivity|].
  destruct (String.eqb actual (signature_hex d)); reflexivity.
Qed.

Lemma ed25519_seed_bare (seed : bytes) :
  List.length seed = 32%nat -> ed25519_seed seed = seed.
Proof. intros H. unfold ed25519_seed. rewrite H. reflexivity. Qed.

Lemma ed25519_seed_expanded (seed tail : bytes) :
  List.length seed = 32%nat -> List.length tail = 32%nat ->
  ed25519_seed (seed ++ tail)%list = seed.
Proof.
  intros Hs Ht. unfold ed25519_seed. rewrite length_app, Hs, Ht. cbn [Nat.add Nat.eqb].
  rewrite <- Hs at 1. rewrite firstn_app, firstn_all, Nat.sub_diag.
  cbn [firstn]. apply app_nil_r.
Qed.

End Ed25519Facts.

(** The claim C2 as worded fails: [Examples.ed_bad_hex], whose private
    key is not hexadecimal, and [Examples.ed_short_seed], whose private
    key is one byte long, both have the family; on each the outcome is
    Invalid and the message does not contain the claimed signature. *)
Lemma ed25519_error_message_lacks_claimed_signature :
  (dict_get "ed25519" (signatures (expected Examples.ed_bad_hex))
     = Some (mkFamilyData "0g" "" Examples.ed_sig)
   /\ exists m,
        outcome_of (validate_ed25519 Toy.provider Examples.ed_bad_hex) = Invalid m
        /\ ~ contains m Examples.ed_sig)
  /\ (dict_get "ed25519" (signatures (expected Examples.ed_short_seed))
        = Some (mkFamilyData "07" "" Examples.ed_sig)
      /\ exists m,
           outcome_of (validate_ed25519 Toy.provider Examples.ed_short_seed)
             = Invalid m
           /\ ~ contains m Examples.ed_sig).
Proof.
  split; (split; [reflexivity|]); eexists; (split; [reflexivity|]);
    intros H; apply contains_length in H; vm_compute in H; lia.
Qed.

(** C2, amended. For a vector that has the Ed25519 family, the outcome is
    Valid exactly when the hex encoding of the recomputed signature is the
    claimed [signature_hex], and Invalid otherwise.  When the signature was
    recomputed and differs, the message contains both the claimed and the
    recomputed hex strings; when the recomputation raised, the message is
    the text of the exception after a fixed prefix. *)
Theorem ed25519_valid_iff_recomputed_hex_equal (P : CryptoProvider)
    (v : Vector) (d : FamilyData) :
  dict_get "ed25519" (signatures (expected v)) = Some d ->
  (outcome_of (validate_ed25519 P v) = Valid <->
     ed25519_actual_sig_hex P (private_key_hex d) (sign_bytes_hex (expected v))
       = inr (signature_hex d))
  /\ (outcome_of (validate_ed25519 P v) <> Valid ->
      exists m, outcome_of (validate_ed25519 P v) = Invalid m)
  /\ (forall actual,
        ed25519_actual_sig_hex P (private_key_hex d) (sign_bytes_hex (expected v))
          = inr actual ->
        actual <> signature_hex d ->
        exists m, outcome_of (validate_ed25519 P v) = Invalid m
                  /\ contains m (signature_hex d) /\ contains m actual)
  /\ (forall e,
        ed25519_actual_sig_hex P (private_key_hex d) (sign_bytes_hex (expected v))
          = inl e ->
        outcome_of (validate_ed25519 P v)
          = Invalid ("Ed25519 validation error: " ++ str e)).
Proof.
  intros Hd. rewrite (validate_ed25519_present P v d Hd).
  destruct (ed25519_actual_sig_hex P _ _) as [e|actual].
  - cbn. split; [split; discriminate|]. split; [eauto|].
    split; [discriminate|]. intros e' He. inversion He; reflexivity.
  - destruct (String.eqb_spec actual (signature_hex d)) as [E|E]; cbn.
    + subst. split; [split; reflexivity|]. split; [congruence|].
      split; [|discriminate].
      intros a Ha Hne. inversion Ha; subst. contradiction.
    + split; [split; [discriminate | intros H; inversion H; contradiction]|].
      split; [eauto|]. split; [|discriminate].
      intros a Ha _. inversion Ha; subst a.
      eexists. split; [reflexivity|]. split.
      * exists ("Ed25519 mismatch!" ++ nl ++ "  Expected: "),
          (nl ++ "  Got:      " ++ actual). reflexivity.
      * exists ("Ed25519 mismatch!" ++ nl ++ "  Expected: " ++ signature_hex d
                ++ nl ++ "  Got:      "), "".
        rewrite append_empty_r, !append_assoc. reflexivity.
Qed.

Lemma ed25519_valid_iff_recomputed_hex_equal_witness :
  dict_get "ed25519" (signatures (expected Examples.ed_mismatch))
    = Some (mkFamilyData (Examples.hex32 "07") "" Examples.zero_digest_hex)
  /\ exists m, outcome_of (validate_ed25519 Toy.provider Examples.ed_mismatch)
               = Invalid m
               /\ contains m Examples.zero_digest_hex
               /\ contains m Examples.ed_sig.
Proof.
  split; [reflexivity|].
  apply (ed25519_valid_iff_recomputed_hex_equal Toy.provider Examples.ed_mismatch
           (mkFamilyData (Examples.hex32 "07") "" Examples.zero_digest_hex)
           eq_refl).
  - reflexivity.
  - discriminate.
Defined.

(** C7. When one Ed25519 private-key field decodes to a bare 32-byte seed
    and another to the same seed followed by 32 more bytes, the seed in use
    is in both cases the first 32 bytes, the recomputed signatures are
    identical and, the rest of the entries being equal, so are the
    outcomes. *)
Theorem ed25519_expanded_key_uses_first_32_bytes (P : CryptoProvider)
    (v1 v2 : Vector) (d1 d2 : FamilyData) (seed tail : bytes) :
  sign_bytes_hex (expected v1) = sign_bytes_hex (expected v2) ->
  dict_get "ed25519" (signatures (expected v1)) = Some d1 ->
  dict_get "ed25519" (signatures (expected v2)) = Some d2 ->
  signature_hex d1 = signature_hex d2 ->
  bytes_fromhex (private_key_hex d1) = inr seed ->
  bytes_fromhex (private_key_hex d2) = inr (seed ++ tail)%list ->
  List.length seed = 32%nat ->
  List.length tail = 32%nat ->
  ed25519_seed (seed ++ tail)%list = firstn 32 (seed ++ tail)%list
  /\ ed25519_seed (seed ++ tail)%list = ed25519_seed seed
  /\ ed25519_actual_sig_hex P (private_key_hex d1) (sign_bytes_hex (expected v1))
     = ed25519_actual_sig_hex P (private_key_hex d2) (sign_bytes_hex (expected v2))
  /\ validate_ed25519 P v1 = validate_ed25519 P v2.
Proof.
  intros Hsb H1 H2 Hsig Hk1 Hk2 Hs Ht.
  assert (Hseed : ed25519_seed (seed ++ tail)%list = ed25519_seed seed).
  { rewrite ed25519_seed_expanded, ed25519_seed_bare by assumption. reflexivity. }
  assert (Hact : ed25519_actual_sig_hex P (private_key_hex d1)
                   (sign_bytes_hex (expected v1))
                 = ed25519_actual_sig_hex P (private_key_hex d2)
                     (sign_bytes_hex (expected v2))).
  { unfold ed25519_actual_sig_hex. rewrite Hk1, Hk2, Hsb. unfold bind.
    rewrite Hseed. reflexivity. }
  split.
  { unfold ed25519_seed. rewrite length_app, Hs, Ht. reflexivity. }
  split; [exact Hseed|]. split; [exact Hact|].
  rewrite (validate_ed25519_present P v1 d1 H1),
    (validate_ed25519_present P v2 d2 H2), Hact, Hsig.
  reflexivity.
Qed.

(** ** Skipping *)

(** Both ECDSA validators skip an entry whose claimed signature is empty. *)
Lemma ecdsa_empty_signature_skipped (P : CryptoProvider) f curve n v d :
  ecdsa_params f = Some (curve, n) ->
  dict_get (family_key f) (signatures (expected v)) = Some d ->
  signature_hex d = "" ->
  validate P f v = (None, "Empty signature (seed derivation only)").
Proof.
  intros Hf Hd He. rewrite (validate_ecdsa_family P f curve n Hf).
  unfold validate_ecdsa, ecdsa_check. rewrite Hd, He. reflexivity.
Qed.

(** An absent family is skipped by each of the three validators. *)
Lemma absent_family_skipped (P : CryptoProvider) f v :
  dict_get (family_key f) (signatures (expected v)) = None ->
  validate P f v = (None, "No " ++ family_key f ++ " signature in vector").
Proof.
  intros Hd. destruct f; cbn [validate family_key] in *;
    unfold validate_ed25519, ed25519_check, validate_secp256k1,
      validate_secp256r1, validate_ecdsa, ecdsa_check;
    rewrite Hd; reflexivity.
Qed.

(** The Ed25519 validator never skips a vector that has the family. *)
Lemma ed25519_present_not_skipped (P : CryptoProvider) v d :
  dict_get "ed25519" (signatures (expected v)) = Some d ->
  is_skipped (validate_ed25519 P v) = false.
Proof.
  intros Hd. rewrite (validate_ed25519_present P v d Hd).
  destruct (ed25519_actual_sig_hex P _ _) as [e|actual]; [reflexivity|].
  destruct (String.eqb actual (signature_hex d)); reflexivity.
Qed.

(** C4. The Ed25519 validator lacks the empty-signature guard of the two
    ECDSA validators ([ecdsa_empty_signature_skipped]): on the vector
    [Examples.ed_empty_signature], whose Ed25519 entry has an empty claimed
    signature, the Ed25519 check is not Skipped, whatever the provider;
    with [Toy.provider] it is Invalid with the mismatch message. *)
Theorem ed25519_empty_signature_not_skipped :
  (forall (P : CryptoProvider) (m : string),
      outcome_of (validate P Ed25519 Examples.ed_empty_signature) <> Skipped m)
  /\ outcome_of (validate Toy.provider Ed25519 Examples.ed_empty_signature)
     = Invalid ("Ed25519 mismatch!" ++ nl ++ "  Expected: " ++ nl
                ++ "  Got:      " ++ Examples.ed_sig).
Proof.
  split; [|reflexivity].
  intros P m. cbn [validate].
  pose proof (ed25519_present_not_skipped P Examples.ed_empty_signature
                (mkFamilyData (Examples.hex32 "07") "" "") eq_refl) as H.
  destruct (validate_ed25519 P Examples.ed_empty_signature) as [[[|]|] m'];
    cbn in *; congruence.
Qed.

(** ** Independence from the supplied public key *)

Lemma dict_get_same_except_public_key key sigs sigs' :
  Forall2 same_entry_except_public_key sigs sigs' ->
  match dict_get key sigs, dict_get key sigs' with
  | Some d, Some d' =>
      private_key_hex d = private_key_hex d' /\ signature_hex d = signature_hex d'
  | None, None => True
  | _, _ => False
  end.
Proof.
  induction 1 as [|[k d] [k' d'] sigs sigs' (Hk & Hp & Hs) _ IH]; cbn; [exact I|].
  cbn in Hk, Hp, Hs. subst k'.
  destruct (String.eqb key k); [split; assumption | exact IH].
Qed.

Lemma validate_ecdsa_same_except_public_key (P : CryptoProvider) key curve n v v' :
  same_except_public_key v v' ->
  validate_ecdsa P key curve n v = validate_ecdsa P key curve n v'.
Proof.
  intros (_ & Hsb & Hsigs).
  pose proof (dict_get_same_except_public_key key _ _ Hsigs) as H.
  unfold validate_ecdsa, ecdsa_check.
  destruct (dict_get key (signatures (expected v))) as [d|];
    destruct (dict_get key (signatures (expected v'))) as [d'|];
    try contradiction; [|reflexivity].
  destruct H as [Hp Hs]. rewrite Hp, Hs, Hsb. reflexivity.
Qed.

(** C9. Two vectors that are identical except for [public_key_hex] fields
    get the same secp256k1 result and the same secp256r1 result. *)
Theorem ecdsa_outcome_independent_of_public_key_hex (P : CryptoProvider)
    (v v' : Vector) :
  same_except_public_key v v' ->
  validate_secp256k1 P v = validate_secp256k1 P v'
  /\ validate_secp256r1 P v = validate_secp256r1 P v'.
Proof.
  intros H. split; apply validate_ecdsa_same_except_public_key; exact H.
Qed.

Lemma ecdsa_outcome_independent_of_public_key_hex_witness :
  same_except_public_key Examples.k1_as_given Examples.k1_other_public_key
  /\ public_key_hex (mkFamilyData (Examples.hex32 "01") "" Examples.sig_as_given)
     <> public_key_hex (mkFamilyData (Examples.hex32 "01") "02ff" Examples.sig_as_given)
  /\ validate_secp256k1 Toy.provider Examples.k1_as_given
     = validate_secp256k1 Toy.provider Examples.k1_other_public_key.
Proof.
  assert (H : same_except_public_key Examples.k1_as_given
                Examples.k1_other_public_key).
  { split; [reflexivity|]. split; [reflexivity|].
    repeat constructor. }
  split; [exact H|]. split; [discriminate|].
  exact (proj1 (ecdsa_outcome_independent_of_public_key_hex Toy.provider _ _ H)).
Defined.

(** ** No length check on the claimed ECDSA signature *)

(** C10. A non-empty claimed signature that is hexadecimal, of whatever
    byte length, is split into [R], the big-endian integer of its first 32
    bytes, and [S], that of all bytes after them.  The check then ends
    before verification only when the key or the digest raises; otherwise
    its result is that of the two verification attempts on [(R, S)].  The
    length of the signature is not tested. *)
Theorem ecdsa_signature_of_any_length_is_verified (P : CryptoProvider)
    (f : Family) (curve : Curve) (n : Z) (v : Vector) (d : FamilyData)
    (sig_bytes : bytes) :
  ecdsa_params f = Some (curve, n) ->
  dict_get (family_key f) (signatures (expected v)) = Some d ->
  signature_hex d <> "" ->
  bytes_fromhex (signature_hex d) = inr sig_bytes ->
  validate P f v =
    match ecdsa_key_and_digest P curve (private_key_hex d)
            (sign_bytes_hex (expected v)) with
    | inl e => (Some false, family_key f ++ " validation error: " ++ str e)
    | inr (pk, digest) =>
        match ecdsa_sig_verifies P n pk digest
                (int_from_bytes_big (firstn 32 sig_bytes))
                (int_from_bytes_big (skipn 32 sig_bytes)) with
        | inr true =>
            (Some true,
             family_key f ++ " signature verified: "
             ++ str_prefix 32 (signature_hex d) ++ "...")
        | inr false =>
            (Some false, family_key f ++ " signature verification FAILED")
        | inl e => (Some false, family_key f ++ " validation error: " ++ str e)
        end
    end.
Proof.
  intros Hf Hd Hne Hs.
  rewrite (validate_ecdsa_family P f curve n Hf),
    (validate_ecdsa_present P _ curve n v d Hd Hne).
  unfold ecdsa_decode, ecdsa_split_signature.
  destruct (ecdsa_key_and_digest P curve _ _) as [e|[pk digest]];
    [reflexivity|].
  cbn [bind]. rewrite Hs. reflexivity.
Qed.

(** ** The report as a function of the outcomes *)

Lemma append_cancel_l (a b c : string) : a ++ b = a ++ c -> b = c.
Proof.
  induction a as [|x a IH]; cbn; intros H; [exact H|].
  inversion H. auto.
Qed.

Lemma ident_injective (v : Vector) (f f' : Family) :
  ident v f = ident v f' -> f = f'.
Proof.
  unfold ident. intros H. apply append_cancel_l in H.
  destruct f, f'; cbn in H; solve [reflexivity | discriminate].
Qed.

Lemma In_families (f : Family) : In f families.
Proof. destruct f; cbn; auto. Qed.

Lemma In_ident_map_filter (p : Family -> bool) (v : Vector) (f : Family) :
  In (ident v f) (map (ident v) (filter p families)) <-> p f = true.
Proof.
  rewrite in_map_iff. split.
  - intros (f' & Hi & Hf). apply ident_injective in Hi. subst f'.
    apply filter_In in Hf. tauto.
  - intros Hp. exists f. split; [reflexivity|].
    apply filter_In. split; [apply In_families | exact Hp].
Qed.

Lemma is_valid_outcome (r : CheckResult) :
  is_valid r = true <-> outcome_of r = Valid.
Proof. destruct r as [[[|]|] m]; cbn; split; congruence. Qed.

Lemma is_invalid_outcome (r : CheckResult) :
  is_invalid r = true <-> exists m, outcome_of r = Invalid m.
Proof.
  destruct r as [[[|]|] m]; cbn; split; try congruence; eauto;
    intros [m' H]; congruence.
Qed.

Lemma is_skipped_outcome (r : CheckResult) :
  is_skipped r = true <-> exists m, outcome_of r = Skipped m.
Proof.
  destruct r as [[[|]|] m]; cbn; split; try congruence; eauto;
    intros [m' H]; congruence.
Qed.

Section ReportFacts.

Context (P : CryptoProvider).

Lemma run_vector_spec res all_passed v :
  run_vector P (res, all_passed) v =
    (results_app res (report_of P v), all_passed && no_invalid P v).
Proof.
  unfold run_vector, validate_vector, record_algorithm, report_of, results_app,
    passed_of, failed_of, skipped_of, all_skipped, no_invalid, families, ident.
  cbn [validate forallb filter map family_key].
  destruct (validate_ed25519 P v) as [[[|]|] m1];
    destruct (validate_secp256k1 P v) as [[[|]|] m2];
    destruct (validate_secp256r1 P v) as [[[|]|] m3];
    cbn -[String.append];
    rewrite ?app_nil_r, <- ?app_assoc, ?andb_true_r, ?andb_false_r;
    reflexivity.
Qed.

Lemma fold_run_vector_spec vs : forall res all_passed,
  fold_left (run_vector P) vs (res, all_passed) =
    (results_app res
       (mkResults (flat_map (passed_of P) vs) (flat_map (failed_of P) vs)
          (flat_map (skipped_of P) vs)),
     all_passed && forallb (no_invalid P) vs).
Proof.
  induction vs as [|v vs IH]; intros res all_passed.
  - cbn [fold_left flat_map forallb]. unfold results_app; cbn [passed failed skipped].
    rewrite !app_nil_r, andb_true_r. destruct res; reflexivity.
  - cbn [fold_left flat_map forallb]. rewrite run_vector_spec, IH.
    unfold results_app, report_of; cbn [passed failed skipped].
    rewrite <- !app_assoc, <- andb_assoc. reflexivity.
Qed.

Lemma run_spec vs :
  run P vs =
    (forallb (no_invalid P) vs,
     mkResults (flat_map (passed_of P) vs) (flat_map (failed_of P) vs)
       (flat_map (skipped_of P) vs)).
Proof. unfold run. rewrite fold_run_vector_spec. reflexivity. Qed.

Lemma no_invalid_spec v :
  no_invalid P v = true <->
  forall f m, outcome_of (validate P f v) <> Invalid m.
Proof.
  unfold no_invalid. rewrite forallb_forall. split.
  - intros H f m Ho. specialize (H f (In_families f)).
    apply negb_true_iff in H.
    assert (Hi : is_invalid (validate P f v) = true)
      by (apply is_invalid_outcome; eauto).
    congruence.
  - intros H f _. apply negb_true_iff.
    destruct (is_invalid (validate P f v)) eqn:E; [|reflexivity].
    apply is_invalid_outcome in E. destruct E as [m E]. elim (H f m E).
Qed.

Lemma run_success_spec vs :
  fst (run P vs) = true <->
  forall v f m, In v vs -> outcome_of (validate P f v) <> Invalid m.
Proof.
  rewrite run_spec. cbn [fst]. rewrite forallb_forall. split.
  - intros H v f m Hin. apply no_invalid_spec. auto.
  - intros H v Hin. apply no_invalid_spec. intros f m. apply (H v f m Hin).
Qed.

Lemma skipped_of_filter vs :
  flat_map (skipped_of P) vs = map name (filter (all_skipped P) vs).
Proof.
  induction vs as [|v vs IH]; [reflexivity|].
  cbn [flat_map filter]. unfold skipped_of at 1.
  destruct (all_skipped P v); cbn; rewrite IH; reflexivity.
Qed.

Lemma all_skipped_nothing_else v :
  all_skipped P v = true -> passed_of P v = [] /\ failed_of P v = [].
Proof.
  unfold all_skipped, passed_of, failed_of, families.
  cbn [forallb filter validate].
  destruct (validate_ed25519 P v) as [[[|]|] m1];
    destruct (validate_secp256k1 P v) as [[[|]|] m2];
    destruct (validate_secp256r1 P v) as [[[|]|] m3];
    cbn; intros H; solve [discriminate | split; reflexivity].
Qed.

Lemma passed_failed_NoDup v : NoDup (passed_of P v ++ failed_of P v).
Proof.
  unfold passed_of, failed_of, families, ident.
  cbn [filter validate].
  destruct (validate_ed25519 P v) as [[[|]|] m1];
    destruct (validate_secp256k1 P v) as [[[|]|] m2];
    destruct (validate_secp256r1 P v) as [[[|]|] m3];
    cbn -[String.append];
    repeat (constructor;
            [cbn -[String.append];
             repeat (let H := fresh in
                     intros [H|H];
                     [apply append_cancel_l in H; discriminate|revert H]);
             intros [] |]);
    constructor.
Qed.

End ReportFacts.

(** ** Claims about the run and its report *)

Lemma main_exit_code (P : CryptoProvider) file json_output :
  fst (main_on_records P file json_output) =
    match file with
    | None => 1
    | Some vs => if fst (run P vs) then 0 else 1
    end.
Proof.
  unfold main_on_records. destruct file as [vs|]; [|reflexivity].
  destruct (run P vs) as [success results]. reflexivity.
Qed.

Lemma main_json_report (P : CryptoProvider) vs path :
  snd (main_on_records P (Some vs) (Some path)) = Some (path, snd (run P vs)).
Proof.
  unfold main_on_records. destruct (run P vs) as [success results]. reflexivity.
Qed.

(** The claim C5 as worded fails: the run on the single vector
    [Examples.ed_bad_hex], whose only family is Ed25519, reports the
    Ed25519 check in [failed]; its two ECDSA checks, both Skipped, appear
    in no list. *)
Lemma skipped_family_outcome_is_dropped :
  ~ no_outcome_dropped Toy.provider [Examples.ed_bad_hex].
Proof.
  intros H.
  specialize (H Examples.ed_bad_hex Secp256k1 (or_introl eq_refl)).
  vm_compute in H.
  destruct H as [[]|[[H|[]]|[[]|[]]]]. discriminate.
Qed.

(** C5, amended. Each check has one outcome.  The lists of the report are
    the concatenation, vector by vector, of: in [passed] one identifier per
    Valid outcome, in [failed] one identifier per Invalid outcome, and in
    [skipped] the bare name of the vector when its three outcomes are
    Skipped and nothing otherwise.  A Valid or Invalid outcome is thus in
    exactly one list, once. *)
Theorem non_skipped_outcomes_reported_once (P : CryptoProvider)
    (vs : list Vector) :
  (passed (snd (run P vs)) = flat_map (passed_of P) vs
   /\ failed (snd (run P vs)) = flat_map (failed_of P) vs
   /\ skipped (snd (run P vs)) = flat_map (skipped_of P) vs)
  /\ forall v f,
       (In (ident v f) (passed_of P v) <-> outcome_of (validate P f v) = Valid)
       /\ (In (ident v f) (failed_of P v) <->
           exists m, outcome_of (validate P f v) = Invalid m)
       /\ NoDup (passed_of P v ++ failed_of P v)
       /\ (skipped_of P v = [name v] \/ skipped_of P v = [])
       /\ (skipped_of P v = [name v] <->
           forall f', exists m, outcome_of (validate P f' v) = Skipped m).
Proof.
  split; [rewrite run_spec; cbn; auto|].
  intros v f. split.
  { unfold passed_of. rewrite In_ident_map_filter. apply is_valid_outcome. }
  split.
  { unfold failed_of. rewrite In_ident_map_filter. apply is_invalid_outcome. }
  split; [apply passed_failed_NoDup|].
  unfold skipped_of. destruct (all_skipped P v) eqn:E.
  - split; [auto|]. split; [|reflexivity]. intros _ f'.
    unfold all_skipped in E. rewrite forallb_forall in E.
    apply is_skipped_outcome. apply E. apply In_families.
  - split; [auto|]. split; [discriminate|]. intros H. exfalso.
    apply not_true_iff_false in E. apply E. unfold all_skipped.
    apply forallb_forall. intros f' _. apply is_skipped_outcome. apply H.
Qed.

(** The claim C8 as worded fails: the report that [main] dumps for the
    single vector [Examples.no_family] has the bare name ["v"] in
    [skipped], which is not an identifier. *)
Lemma skipped_entry_is_a_bare_name :
  exists rs,
    snd (main_on_records Toy.provider (Some [Examples.no_family])
           (Some "out.json"))
      = Some ("out.json", rs)
    /\ ~ only_identifiers rs.
Proof.
  eexists. split; [reflexivity|].
  intros H. specialize (H "v" (or_introl eq_refl)).
  destruct H as (nm & f & H).
  destruct nm as [|c nm]; [destruct f; discriminate|].
  cbn in H. inversion H as [[Hc Hn]].
  destruct nm; discriminate.
Qed.

(** C8, amended. The JSON report, when one is written, is the result
    lists of the run.  [passed] and [failed] contain only identifiers
    ["<name>:<family>"], one per Valid and one per Invalid outcome;
    [skipped] contains the bare names of the vectors whose three outcomes
    are Skipped, and such a vector has no entry in [passed] or [failed]. *)
Theorem json_report_identifiers_and_skipped_names (P : CryptoProvider)
    (vs : list Vector) (path : string) :
  snd (main_on_records P (Some vs) (Some path)) = Some (path, snd (run P vs))
  /\ passed (snd (run P vs)) = flat_map (passed_of P) vs
  /\ failed (snd (run P vs)) = flat_map (failed_of P) vs
  /\ (forall x, In x (passed (snd (run P vs)) ++ failed (snd (run P vs))) ->
        is_identifier x)
  /\ skipped (snd (run P vs)) = map name (filter (all_skipped P) vs)
  /\ forall v, In v vs -> all_skipped P v = true ->
       In (name v) (skipped (snd (run P vs)))
       /\ passed_of P v = [] /\ failed_of P v = [].
Proof.
  split; [apply main_json_report|].
  rewrite run_spec. cbn [snd passed failed skipped].
  split; [reflexivity|]. split; [reflexivity|]. split.
  { intros x Hx. apply in_app_or in Hx.
    destruct Hx as [Hx|Hx]; apply in_flat_map in Hx;
      destruct Hx as (v & _ & Hx); apply in_map_iff in Hx;
      destruct Hx as (f & <- & _); exists (name v), f; reflexivity. }
  split; [apply skipped_of_filter|].
  intros v Hin Hs. split; [|apply all_skipped_nothing_else; exact Hs].
  apply in_flat_map. exists v. split; [exact Hin|].
  unfold skipped_of. rewrite Hs. left. reflexivity.
Qed.

Lemma json_report_identifiers_and_skipped_names_witness :
  In Examples.no_family [Examples.ed_mismatch; Examples.no_family]
  /\ all_skipped Toy.provider Examples.no_family = true
  /\ In (name Examples.no_family)
       (skipped (snd (run Toy.provider
                        [Examples.ed_mismatch; Examples.no_family])))
  /\ passed_of Toy.provider Examples.no_family = []
  /\ failed_of Toy.provider Examples.no_family = [].
Proof.
  split; [right; left; reflexivity|]. split; [reflexivity|].
  apply (json_report_identifiers_and_skipped_names Toy.provider
           [Examples.ed_mismatch; Examples.no_family] "out.json").
  - right; left; reflexivity.
  - reflexivity.
Defined.

(** ** Exceptions inside a check *)



Lemma ed25519_expanded_key_uses_first_32_bytes_witness :
  bytes_fromhex (Examples.hex32 "07") = inr Examples.seed07
  /\ bytes_fromhex (Examples.hex32 "07" ++ Examples.hex32 "09")
     = inr (Examples.seed07 ++ Examples.tail09)%list
  /\ List.length Examples.seed07 = 32%nat
  /\ List.length Examples.tail09 = 32%nat
  /\ validate_ed25519 Toy.provider Examples.ed_seed32
     = validate_ed25519 Toy.provider Examples.ed_seed64.
Proof.
  split; [reflexivity|]. split; [reflexivity|].
  split; [reflexivity|]. split; [reflexivity|].
  apply (ed25519_expanded_key_uses_first_32_bytes Toy.provider
           Examples.ed_seed32 Examples.ed_seed64
           (mkFamilyData (Examples.hex32 "07") "" Examples.ed_sig)
           (mkFamilyData (Examples.hex32 "07" ++ Examples.hex32 "09") ""
              Examples.ed_sig)
           Examples.seed07 Examples.tail09);
    reflexivity.
Defined.

Lemma ecdsa_signature_of_any_length_is_verified_witness :
  bytes_fromhex Examples.sig_65_bytes
    = inr (Examples.one32 ++ x00 :: Examples.one32)%list
  /\ List.length (Examples.one32 ++ x00 :: Examples.one32)%list = 65%nat
  /\ validate Toy.provider Secp256k1 Examples.k1_long
     = (Some true,
        "secp256k1 signature verified: 00000000000000000000000000000000...").
Proof.
  split; [reflexivity|]. split; [reflexivity|].
  assert (Hne : Examples.sig_65_bytes <> "") by discriminate.
  exact (ecdsa_signature_of_any_length_is_verified Toy.provider
           Secp256k1 SECP256K1 secp256k1_n Examples.k1_long
           (mkFamilyData (Examples.hex32 "01") "" Examples.sig_65_bytes)
           (Examples.one32 ++ x00 :: Examples.one32)%list
           eq_refl eq_refl Hne eq_refl).
Defined.

(** ** The examples of the specification, run on [Toy.provider] *)

Example complement_path_is_valid :
  outcome_of (validate_secp256k1 Toy.provider Examples.k1_complement) = Valid.
Proof. reflexivity. Qed.

Example wrong_s_is_invalid :
  validate_secp256k1 Toy.provider Examples.k1_wrong
  = (Some false, "secp256k1 signature verification FAILED").
Proof. reflexivity. Qed.

Example one_byte_signature_reaches_verification :
  validate_secp256k1 Toy.provider Examples.k1_short
  = (Some false, "secp256k1 signature verification FAILED").
Proof. reflexivity. Qed.

Example ed25519_seed_forms_agree :
  validate_ed25519 Toy.provider Examples.ed_seed64
  = (Some true, "Ed25519 signature matches: 00000000000000000000000000000000...").
Proof. reflexivity. Qed.

Example short_seed_is_invalid :
  validate_ed25519 Toy.provider Examples.ed_short_seed
  = (Some false, "Ed25519 validation error: An Ed25519 private key is 32 bytes long").
Proof. reflexivity. Qed.

Example run_on_examples :
  run Toy.provider
    [Examples.ed_seed32; Examples.k1_wrong; Examples.no_family;
     Examples.k1_complement]
  = (false,
     mkResults ["e:ed25519"; "k:secp256k1"] ["k:secp256k1"] ["v"]).
Proof. reflexivity. Qed.

Example main_on_missing_file :
  main_on_records Toy.provider None (Some "out.json") = (1, None).
Proof. reflexivity. Qed.

(** ** More on the run: the flag, the counts and repeated calls *)

Section RunFacts.

Context (P : CryptoProvider).

Lemma failed_of_nil_iff v : failed_of P v = [] <-> no_invalid P v = true.
Proof.
  unfold failed_of, no_invalid, families. cbn [filter forallb validate].
  destruct (validate_ed25519 P v) as [[[|]|] m1];
    destruct (validate_secp256k1 P v) as [[[|]|] m2];
    destruct (validate_secp256r1 P v) as [[[|]|] m3];
    cbn; split; intros H; solve [reflexivity | discriminate].
Qed.

Lemma flat_map_failed_nil_iff vs :
  flat_map (failed_of P) vs = [] <-> forallb (no_invalid P) vs = true.
Proof.
  induction vs as [|v vs IH]; cbn [flat_map forallb]; [tauto|].
  rewrite andb_true_iff, <- IH, <- failed_of_nil_iff. split.
  - intros H. apply app_eq_nil in H. exact H.
  - intros [H1 H2]. rewrite H1, H2. reflexivity.
Qed.

(** What one vector adds to the three lists, counted. *)
Lemma report_of_lengths v :
  (all_skipped P v = true
   /\ List.length (skipped_of P v) = 1
   /\ List.length (passed_of P v) + List.length (failed_of P v) = 0)%nat
  \/ (all_skipped P v = false
      /\ List.length (skipped_of P v) = 0
      /\ 1 <= List.length (passed_of P v) + List.length (failed_of P v) <= 3)%nat.
Proof.
  unfold skipped_of, all_skipped, passed_of, failed_of, families.
  cbn [filter forallb validate].
  destruct (validate_ed25519 P v) as [[[|]|] m1];
    destruct (validate_secp256k1 P v) as [[[|]|] m2];
    destruct (validate_secp256r1 P v) as [[[|]|] m3];
    cbn; solve [left; repeat split; lia | right; repeat split; lia].
Qed.

Lemma run_method_spec (self : RFC6979Validator) vs :
  run_method P self vs =
    (fst (run P vs),
     mkValidator (vectors_file self)
       (results_app (results self) (snd (run P vs)))).
Proof.
  unfold run_method. rewrite fold_run_vector_spec, run_spec. reflexivity.
Qed.

End RunFacts.

(** X1. On a validator as [main] constructs it, [run] returns [True]
    exactly when it leaves the [failed] list empty. *)
Theorem run_flag_iff_failed_empty (P : CryptoProvider) (vs : list Vector) :
  fst (run P vs) = true <-> failed (snd (run P vs)) = [].
Proof.
  rewrite run_spec. cbn [fst snd failed].
  symmetry. apply flat_map_failed_nil_iff.
Qed.

(** X2. Every vector is accounted for: it adds either its name to
    [skipped] and nothing else, or between one and three identifiers to
    [passed] and [failed] and nothing to [skipped]. *)
Theorem run_accounts_for_every_vector (P : CryptoProvider) (vs : list Vector) :
  (List.length (skipped (snd (run P vs)))
   = List.length (filter (all_skipped P) vs)
   /\ List.length (skipped (snd (run P vs))) <= List.length vs
   /\ List.length vs - List.length (skipped (snd (run P vs)))
      <= List.length (passed (snd (run P vs)))
         + List.length (failed (snd (run P vs)))
   /\ List.length (passed (snd (run P vs)))
      + List.length (failed (snd (run P vs)))
      <= 3 * (List.length vs - List.length (skipped (snd (run P vs)))))%nat.
Proof.
  rewrite run_spec. cbn [snd passed failed skipped].
  induction vs as [|v vs IH]; [cbn; lia|].
  cbn [flat_map filter List.length]. rewrite !length_app.
  destruct (report_of_lengths P v) as [(Ha & Hs & Hpf)|(Ha & Hs & Hpf)];
    rewrite Ha; cbn [List.length]; lia.
Qed.

(** X3. The run over a concatenation is the run over its parts: the flag
    is the conjunction of the flags and each list is the concatenation of
    the lists. *)
Theorem run_app (P : CryptoProvider) (vs1 vs2 : list Vector) :
  run P (vs1 ++ vs2) =
    (fst (run P vs1) && fst (run P vs2),
     results_app (snd (run P vs1)) (snd (run P vs2))).
Proof.
  rewrite !run_spec. cbn [fst snd]. unfold results_app.
  cbn [passed failed skipped]. rewrite forallb_app, !flat_map_app.
  reflexivity.
Qed.

(** X4. The method [run] appends to [self.results] and never resets it,
    and what it returns depends on the vectors of this call only: on a
    validator that has already run, the lists hold the entries of both
    runs, and the flag is that of a first run on the same vectors, whatever
    failures [self.results] already holds. *)
Theorem run_twice_accumulates (P : CryptoProvider) (path : string)
    (vs1 vs2 : list Vector) :
  run_method P (new_validator path) vs1
    = (fst (run P vs1), mkValidator path (snd (run P vs1)))
  /\ run_method P (snd (run_method P (new_validator path) vs1)) vs2
     = (fst (run P vs2),
        mkValidator path (results_app (snd (run P vs1)) (snd (run P vs2)))).
Proof.
  rewrite !run_method_spec. cbn [fst snd results vectors_file new_validator].
  assert (H : forall r, results_app (mkResults [] [] []) r = r).
  { intros [p f s]. reflexivity. }
  rewrite !H. auto.
Qed.

(** ** The console output *)

Lemma fold_print_lines (f : string -> string) (xs out : list string) :
  fold_left (fun out x => print (f x) out) xs out = (out ++ map f xs)%list.
Proof.
  revert out. induction xs as [|x xs IH]; intros out; cbn [fold_left map].
  - now rewrite app_nil_r.
  - rewrite IH. unfold print. now rewrite <- app_assoc.
Qed.

Lemma print_summary_spec (res : Results) (out : list string) :
  print_summary res out = (out ++ summary_lines res)%list.
Proof.
  unfold print_summary, summary_lines.
  destruct (failed res) as [|x xs] eqn:E.
  - unfold print. rewrite <- !app_assoc. reflexivity.
  - rewrite fold_print_lines. unfold print. rewrite <- !app_assoc. reflexivity.
Qed.

Section ConsoleFacts.

Context (P : CryptoProvider).

Lemma run_vector_io_spec res out all_passed v :
  run_vector_io P (res, out, all_passed) v =
    (fst (run_vector P (res, all_passed) v),
     (out ++ vector_lines P v)%list,
     snd (run_vector P (res, all_passed) v)).
Proof.
  unfold run_vector_io, run_vector, validate_vector, record_algorithm,
    vector_lines, check_lines, pass_line, fail_line, message_line, skip_line,
    all_skipped, families, print.
  cbn [validate forallb flat_map family_key].
  destruct (validate_ed25519 P v) as [[[|]|] m1];
    destruct (validate_secp256k1 P v) as [[[|]|] m2];
    destruct (validate_secp256r1 P v) as [[[|]|] m3];
    cbn -[String.append]; unfold print;
    rewrite <- ?app_assoc; reflexivity.
Qed.

Lemma fold_run_vector_io_spec vs : forall res out all_passed,
  fold_left (run_vector_io P) vs (res, out, all_passed) =
    (fst (fold_left (run_vector P) vs (res, all_passed)),
     (out ++ flat_map (vector_lines P) vs)%list,
     snd (fold_left (run_vector P) vs (res, all_passed))).
Proof.
  induction vs as [|v vs IH]; intros res out all_passed.
  - cbn. now rewrite app_nil_r.
  - cbn [fold_left flat_map]. rewrite run_vector_io_spec.
    destruct (run_vector P (res, all_passed) v) as [res' ap'] eqn:E.
    cbn [fst snd]. rewrite IH, <- app_assoc. reflexivity.
Qed.

Lemma run_io_spec self vs out :
  run_io P self vs out =
    (fst (run_method P self vs), snd (run_method P self vs),
     (out ++ header_lines (vectors_file self) (List.length vs)
          ++ flat_map (vector_lines P) vs
          ++ summary_lines (results (snd (run_method P self vs))))%list).
Proof.
  unfold run_io, run_method, print, header_lines.
  rewrite fold_run_vector_io_spec.
  destruct (fold_left (run_vector P) vs (results self, true)) as [res ap].
  cbn [fst snd results]. rewrite print_summary_spec, <- !app_assoc.
  reflexivity.
Qed.

(** An Invalid check leaves its FAIL line and its message, one after the
    other, among the lines of its vector. *)
Lemma vector_lines_invalid v f m :
  outcome_of (validate P f v) = Invalid m ->
  exists before after,
    vector_lines P v =
      (before ++ [fail_line v f; message_line m] ++ after)%list.
Proof.
  intros H.
  assert (Hc : check_lines P v f = [fail_line v f; message_line m]).
  { unfold check_lines.
    destruct (validate P f v) as [[[|]|] m']; cbn in H; inversion H; reflexivity. }
  assert (Ha : all_skipped P v = false).
  { apply not_true_iff_false. intros Hall. unfold all_skipped in Hall.
    rewrite forallb_forall in Hall. specialize (Hall f (In_families f)).
    destruct (validate P f v) as [[[|]|] m']; cbn in H, Hall; discriminate. }
  unfold vector_lines. rewrite Ha. unfold families. cbn [flat_map].
  destruct f; rewrite Hc.
  - exists [], (check_lines P v Secp256k1 ++ check_lines P v Secp256r1 ++ [])%list.
    reflexivity.
  - exists (check_lines P v Ed25519), (check_lines P v Secp256r1 ++ [])%list.
    reflexivity.
  - exists (check_lines P v Ed25519 ++ check_lines P v Secp256k1)%list, [].
    rewrite <- !app_assoc. reflexivity.
Qed.

End ConsoleFacts.

Lemma results_app_empty_l (r : Results) : results_app (mkResults [] [] []) r = r.
Proof. destruct r; reflexivity. Qed.

Lemma run_method_new_validator (P : CryptoProvider) path vs :
  run_method P (new_validator path) vs
  = (fst (run P vs), mkValidator path (snd (run P vs))).
Proof.
  rewrite run_method_spec. cbn [new_validator results vectors_file].
  now rewrite results_app_empty_l.
Qed.

(** [main] with its output has the exit code and the report of [main]. *)
Lemma main_io_spec (P : CryptoProvider) path file json_output :
  exit_code (main_io P path file json_output) = fst (main_on_records P file json_output)
  /\ json_written (main_io P path file json_output)
     = snd (main_on_records P file json_output).
Proof.
  unfold main_io, main_on_records. destruct file as [vs|]; [|split; reflexivity].
  rewrite run_io_spec, run_method_new_validator. cbn [fst snd results].
  destruct (run P vs) as [success res]. cbn [fst snd].
  destruct json_output; split; reflexivity.
Qed.

Lemma main_report_spec (P : CryptoProvider) file json_output :
  snd (main_on_records P file json_output) =
    match file, json_output with
    | Some vs, Some json_path => Some (json_path, snd (run P vs))
    | _, _ => None
    end.
Proof.
  unfold main_on_records. destruct file as [vs|]; [|reflexivity].
  destruct (run P vs) as [success res]. destruct json_output; reflexivity.
Qed.

Lemma main_io_printed (P : CryptoProvider) path vs json_output :
  printed (main_io P path (Some vs) json_output) =
    (header_lines path (List.length vs)
     ++ flat_map (vector_lines P) vs
     ++ summary_lines (snd (run P vs))
     ++ match json_output with
        | Some json_path => [(nl ++ "Results written to: " ++ json_path)%string]
        | None => []
        end)%list.
Proof.
  unfold main_io. rewrite run_io_spec, run_method_new_validator.
  cbn [fst snd results vectors_file new_validator app].
  destruct json_output; cbn [printed]; unfold print;
    rewrite <- ?app_assoc, ?app_nil_r; reflexivity.
Qed.

(** X5. What [run] prints is, after the two header lines: for each vector
    in turn one SKIP line if its three checks are skipped, and otherwise,
    family by family, one PASS line for a Valid check, a FAIL line followed
    by the message for an Invalid check and nothing for a Skipped check;
    then the summary of the final lists.  The message of a Valid or of a
    Skipped check is not printed. *)
Theorem run_output_lines (P : CryptoProvider) (self : RFC6979Validator)
    (vs : list Vector) (out : list string) :
  snd (run_io P self vs out) =
    (out ++ header_lines (vectors_file self) (List.length vs)
         ++ flat_map (vector_lines P) vs
         ++ summary_lines (results_app (results self) (snd (run P vs))))%list
  /\ fst (run_io P self vs out) = run_method P self vs.
Proof.
  rewrite run_io_spec, run_method_spec. cbn [fst snd results]. split; reflexivity.
Qed.

(** X6. No failure goes unprinted: for every check of the run that is
    Invalid, the output has the FAIL line of its vector and family,
    immediately followed by the line with the message of the check. *)
Theorem invalid_check_is_printed_with_its_message (P : CryptoProvider)
    (self : RFC6979Validator) (vs : list Vector) (out : list string)
    (v : Vector) (f : Family) (m : string) :
  In v vs ->
  outcome_of (validate P f v) = Invalid m ->
  exists before after,
    snd (run_io P self vs out)
    = (before ++ [fail_line v f; message_line m] ++ after)%list.
Proof.
  intros Hin Ho. rewrite run_io_spec. cbn [snd].
  destruct (in_split _ _ Hin) as (l1 & l2 & ->).
  destruct (vector_lines_invalid P v f m Ho) as (b & a & Hv).
  rewrite flat_map_app. cbn [flat_map]. rewrite Hv.
  eexists (out ++ header_lines _ _ ++ flat_map (vector_lines P) l1 ++ b)%list.
  eexists (a ++ flat_map (vector_lines P) l2 ++ summary_lines _)%list.
  rewrite <- !app_assoc. reflexivity.
Qed.

Lemma invalid_check_is_printed_with_its_message_witness :
  In Examples.k1_wrong [Examples.ed_seed32; Examples.k1_wrong]
  /\ outcome_of (validate Toy.provider Secp256k1 Examples.k1_wrong)
     = Invalid "secp256k1 signature verification FAILED"
  /\ exists before after,
       snd (run_io Toy.provider (new_validator "vectors.json")
              [Examples.ed_seed32; Examples.k1_wrong] [])
       = (before
          ++ ["  FAIL: k [secp256k1]";
              "        secp256k1 signature verification FAILED"]
          ++ after)%list.
Proof.
  split; [right; left; reflexivity|]. split; [reflexivity|].
  exact (invalid_check_is_printed_with_its_message Toy.provider
           (new_validator "vectors.json")
           [Examples.ed_seed32; Examples.k1_wrong] []
           Examples.k1_wrong Secp256k1
           "secp256k1 signature verification FAILED"
           (or_intror (or_introl eq_refl)) eq_refl).
Defined.


(** X8. A JSON report is written with the list [failed] that decides the
    exit code: when [main] writes a report, it exits with 0 exactly when
    the report's [failed] list is empty and with 1 exactly when it is not,
    and its last printed line names the report. *)
Theorem json_report_agrees_with_exit_code (P : CryptoProvider)
    (path : string) (file : option (list Vector))
    (json_output : option string) (json_path : string) (rs : Results) :
  json_written (main_io P path file json_output) = Some (json_path, rs) ->
  (exit_code (main_io P path file json_output) = 0 <-> failed rs = [])
  /\ (exit_code (main_io P path file json_output) = 1 <-> failed rs <> [])
  /\ exists earlier,
       printed (main_io P path file json_output)
       = (earlier ++ [(nl ++ "Results written to: " ++ json_path)%string])%list.
Proof.
  destruct (main_io_spec P path file json_output) as [He Hj].
  rewrite He, Hj, main_exit_code, main_report_spec.
  destruct file as [vs|]; [|discriminate].
  destruct json_output as [p|]; [|discriminate].
  intros H. inversion H; subst.
  pose proof (flat_map_failed_nil_iff P vs) as Hf.
  rewrite run_spec in *. cbn [fst snd failed] in *.
  split; [|split].
  - rewrite Hf. destruct (forallb (no_invalid P) vs); split; congruence.
  - destruct (forallb (no_invalid P) vs) eqn:E; split; try congruence.
    + intros Hn. exfalso. apply Hn. apply Hf. reflexivity.
    + intros _ Hn. apply Hf in Hn. discriminate.
  - rewrite main_io_printed. eexists. rewrite !app_assoc. reflexivity.
Qed.

Lemma json_report_agrees_with_exit_code_witness :
  json_written (main_io Toy.provider "vectors.json"
                  (Some [Examples.k1_wrong]) (Some "out.json"))
    = Some ("out.json", mkResults [] ["k:secp256k1"] [])
  /\ exit_code (main_io Toy.provider "vectors.json"
                  (Some [Examples.k1_wrong]) (Some "out.json")) = 1.
Proof.
  split; [reflexivity|].
  apply (json_report_agrees_with_exit_code Toy.provider "vectors.json"
           (Some [Examples.k1_wrong]) (Some "out.json") "out.json"
           (mkResults [] ["k:secp256k1"] []) eq_refl).
  discriminate.
Defined.

(** ** Hexadecimal text and bytes *)

Lemma fromhex_chars_hex_cons (x : byte) (s : string) :
  fromhex_chars
    (String (hex_digit (Byte.to_N x / 16))
       (String (hex_digit (Byte.to_N x mod 16)) s))
  = option_map (cons x) (fromhex_chars s).
Proof. destruct x; reflexivity. Qed.

(** [bytes.fromhex(b.hex()) == b] *)
Lemma fromhex_hex (b : bytes) : bytes_fromhex (bytes_hex b) = inr b.
Proof.
  unfold bytes_fromhex.
  assert (H : fromhex_chars (bytes_hex b) = Some b).
  { induction b as [|x b IH]; [reflexivity|].
    cbn [bytes_hex]. rewrite fromhex_chars_hex_cons, IH. reflexivity. }
  rewrite H. reflexivity.
Qed.

Lemma bytes_hex_length (b : bytes) :
  String.length (bytes_hex b) = (2 * List.length b)%nat.
Proof.
  induction b as [|x b IH]; [reflexivity|].
  cbn [bytes_hex String.length List.length]. rewrite IH. lia.
Qed.

Lemma int_from_bytes_big_leading_zeros (k : nat) (b : bytes) :
  int_from_bytes_big (repeat x00 k ++ b)%list = int_from_bytes_big b.
Proof.
  unfold int_from_bytes_big. rewrite fold_left_app.
  assert (H : fold_left (fun acc x => 256 * acc + Z.of_N (Byte.to_N x))
                (repeat x00 k) 0 = 0).
  { induction k as [|k IH]; [reflexivity|]. cbn [repeat fold_left].
    change (256 * 0 + Z.of_N (Byte.to_N x00)) with 0. exact IH. }
  rewrite H. reflexivity.
Qed.

Lemma ed25519_actual_sig_hex_signature (P : CryptoProvider) kh dh :
  ed25519_actual_sig_hex P kh dh =
    match ed25519_signature P kh dh with
    | inr sig => inr (bytes_hex sig)
    | inl e => inl e
    end.
Proof.
  unfold ed25519_actual_sig_hex, ed25519_signature, bind, ret.
  destruct (bytes_fromhex kh); [reflexivity|].
  destruct (from_private_bytes P _); [reflexivity|].
  destruct (bytes_fromhex dh); reflexivity.
Qed.

(** ** How the validators read their hexadecimal fields *)

(** X9. The ECDSA validators read [signature_hex] through its bytes only:
    two entries that differ in the spelling of a non-empty claimed
    signature (letter case, white space between bytes) but decode to the
    same bytes get the same verdict, and the same message unless the
    verdict is Valid. *)
Theorem ecdsa_signature_hex_read_through_its_bytes (P : CryptoProvider)
    (f : Family) (curve : Curve) (n : Z) (v v' : Vector) (d d' : FamilyData) :
  ecdsa_params f = Some (curve, n) ->
  dict_get (family_key f) (signatures (expected v)) = Some d ->
  dict_get (family_key f) (signatures (expected v')) = Some d' ->
  sign_bytes_hex (expected v) = sign_bytes_hex (expected v') ->
  private_key_hex d = private_key_hex d' ->
  signature_hex d <> "" ->
  signature_hex d' <> "" ->
  bytes_fromhex (signature_hex d) = bytes_fromhex (signature_hex d') ->
  fst (validate P f v) = fst (validate P f v')
  /\ (fst (validate P f v) <> Some true -> validate P f v = validate P f v').
Proof.
  intros Hf Hd Hd' Hsb Hk Hne Hne' Hs.
  rewrite (validate_ecdsa_family P f curve n Hf),
    (validate_ecdsa_present P _ curve n v d Hd Hne),
    (validate_ecdsa_present P _ curve n v' d' Hd' Hne').
  unfold ecdsa_decode. rewrite Hsb, Hk, Hs.
  destruct (ecdsa_key_and_digest P curve _ _) as [e|[pk digest]];
    [split; reflexivity|].
  cbn [bind]. destruct (bytes_fromhex (signature_hex d')) as [e|sb];
    [split; reflexivity|].
  cbn [bind ecdsa_split_signature ret].
  destruct (ecdsa_sig_verifies P n pk digest _ _) as [e|[|]]; cbn [fst].
  - split; reflexivity.
  - split; [reflexivity|]. intros H. contradiction.
  - split; reflexivity.
Qed.

Lemma ecdsa_signature_hex_read_through_its_bytes_witness :
  Examples.sig_complement <> MoreExamples.sig_complement_upper
  /\ bytes_fromhex Examples.sig_complement
     = bytes_fromhex MoreExamples.sig_complement_upper
  /\ fst (validate Toy.provider Secp256k1 Examples.k1_complement)
     = fst (validate Toy.provider Secp256k1 MoreExamples.k1_complement_upper).
Proof.
  split; [discriminate|]. split; [reflexivity|].
  apply (ecdsa_signature_hex_read_through_its_bytes Toy.provider Secp256k1
           SECP256K1 secp256k1_n Examples.k1_complement
           MoreExamples.k1_complement_upper
           (mkFamilyData (Examples.hex32 "01") "" Examples.sig_complement)
           (mkFamilyData (Examples.hex32 "01") ""
              MoreExamples.sig_complement_upper));
    solve [reflexivity | discriminate].
Defined.

(** X10. The Ed25519 validator compares hexadecimal text.  When its
    check is Valid, the claimed [signature_hex] is the lower-case hex of
    the recomputed signature: it decodes to exactly those bytes and is
    twice as long.  A claimed signature that decodes to the recomputed
    bytes but is spelt otherwise is Invalid. *)
Theorem ed25519_valid_means_canonical_hex (P : CryptoProvider)
    (v : Vector) (d : FamilyData) :
  dict_get "ed25519" (signatures (expected v)) = Some d ->
  (outcome_of (validate_ed25519 P v) = Valid ->
     exists sig,
       ed25519_signature P (private_key_hex d) (sign_bytes_hex (expected v))
         = inr sig
       /\ signature_hex d = bytes_hex sig
       /\ bytes_fromhex (signature_hex d) = inr sig
       /\ String.length (signature_hex d) = (2 * List.length sig)%nat)
  /\ (forall sig,
        ed25519_signature P (private_key_hex d) (sign_bytes_hex (expected v))
          = inr sig ->
        bytes_fromhex (signature_hex d) = inr sig ->
        signature_hex d <> bytes_hex sig ->
        exists m, outcome_of (validate_ed25519 P v) = Invalid m).
Proof.
  intros Hd. rewrite (validate_ed25519_present P v d Hd),
    ed25519_actual_sig_hex_signature.
  destruct (ed25519_signature P _ _) as [e|sig].
  - split; [discriminate|]. intros sig H. discriminate.
  - destruct (String.eqb_spec (bytes_hex sig) (signature_hex d)) as [E|E]; cbn.
    + split.
      * intros _. exists sig. rewrite <- E.
        split; [reflexivity|]. split; [reflexivity|].
        split; [apply fromhex_hex | apply bytes_hex_length].
      * intros sig' H _ Hne. inversion H; subst. congruence.
    + split; [discriminate|]. intros; eauto.
Qed.

Lemma ed25519_valid_means_canonical_hex_witness :
  dict_get "ed25519" (signatures (expected MoreExamples.ed_upper))
    = Some (mkFamilyData (Examples.hex32 "0a") ""
              (Examples.hex32 "0A" ++ Examples.zero_digest_hex))
  /\ bytes_fromhex (Examples.hex32 "0A" ++ Examples.zero_digest_hex)
     = bytes_fromhex (Examples.hex32 "0a" ++ Examples.zero_digest_hex)
  /\ outcome_of (validate_ed25519 Toy.provider MoreExamples.ed_lower) = Valid
  /\ exists m,
       outcome_of (validate_ed25519 Toy.provider MoreExamples.ed_upper)
       = Invalid m.
Proof.
  split; [reflexivity|]. split; [reflexivity|]. split; [reflexivity|].
  apply (proj2 (ed25519_valid_means_canonical_hex Toy.provider
                  MoreExamples.ed_upper
                  (mkFamilyData (Examples.hex32 "0a") ""
                     (Examples.hex32 "0A" ++ Examples.zero_digest_hex))
                  eq_refl)
           (repeat x00 31 ++ [x0a] ++ repeat x00 32)%list).
  - reflexivity.
  - reflexivity.
  - discriminate.
Defined.

(** X11. The ECDSA validators read the private key as an integer:
    leading zero bytes in [private_key_hex], and so the byte length of the
    key, do not change the result. *)
Theorem ecdsa_private_key_leading_zeros_ignored (P : CryptoProvider)
    (f : Family) (curve : Curve) (n : Z) (v v' : Vector) (d d' : FamilyData)
    (key_bytes : bytes) (k : nat) :
  ecdsa_params f = Some (curve, n) ->
  dict_get (family_key f) (signatures (expected v)) = Some d ->
  dict_get (family_key f) (signatures (expected v')) = Some d' ->
  sign_bytes_hex (expected v) = sign_bytes_hex (expected v') ->
  signature_hex d = signature_hex d' ->
  bytes_fromhex (private_key_hex d) = inr key_bytes ->
  bytes_fromhex (private_key_hex d') = inr (repeat x00 k ++ key_bytes)%list ->
  validate P f v = validate P f v'.
Proof.
  intros Hf Hd Hd' Hsb Hs Hk Hk'.
  rewrite (validate_ecdsa_family P f curve n Hf).
  unfold validate_ecdsa, ecdsa_check. rewrite Hd, Hd', Hs, Hsb.
  destruct (String.eqb (signature_hex d') ""); [reflexivity|].
  unfold ecdsa_decode, ecdsa_key_and_digest. rewrite Hk, Hk'. cbn [bind].
  rewrite int_from_bytes_big_leading_zeros. reflexivity.
Qed.

Lemma ecdsa_private_key_leading_zeros_ignored_witness :
  bytes_fromhex "01" = inr [x01]
  /\ bytes_fromhex (Examples.hex32 "01") = inr (repeat x00 31 ++ [x01])%list
  /\ validate Toy.provider Secp256k1 MoreExamples.k1_short_key
     = validate Toy.provider Secp256k1 Examples.k1_as_given.
Proof.
  split; [reflexivity|]. split; [reflexivity|].
  apply (ecdsa_private_key_leading_zeros_ignored Toy.provider Secp256k1
           SECP256K1 secp256k1_n MoreExamples.k1_short_key Examples.k1_as_given
           (mkFamilyData "01" "" Examples.sig_as_given)
           (mkFamilyData (Examples.hex32 "01") "" Examples.sig_as_given)
           [x01] 31);
    reflexivity.
Defined.

(** X12. The Ed25519 validator truncates a private key only when it is
    exactly 64 bytes long.  With a provider that refuses seeds that are
    not 32 bytes long, a key of any length other than 32 and 64 is handed
    over whole and the check is Invalid with the provider's message. *)
Theorem ed25519_key_of_other_length_is_invalid (P : CryptoProvider)
    (v : Vector) (d : FamilyData) (key_bytes : bytes) :
  seed_length_checked P ->
  dict_get "ed25519" (signatures (expected v)) = Some d ->
  bytes_fromhex (private_key_hex d) = inr key_bytes ->
  List.length key_bytes <> 32%nat ->
  List.length key_bytes <> 64%nat ->
  ed25519_seed key_bytes = key_bytes
  /\ exists e,
       from_private_bytes P key_bytes = inl e
       /\ validate_ed25519 P v
          = (Some false, "Ed25519 validation error: " ++ str e).
Proof.
  intros Hp Hd Hk H32 H64.
  assert (Hseed : ed25519_seed key_bytes = key_bytes).
  { unfold ed25519_seed. destruct (Nat.eqb_spec (List.length key_bytes) 64);
      [contradiction | reflexivity]. }
  split; [exact Hseed|].
  destruct (Hp key_bytes H32) as [e He]. exists e. split; [exact He|].
  rewrite (validate_ed25519_present P v d Hd).
  unfold ed25519_actual_sig_hex. rewrite Hk. cbn [bind].
  rewrite Hseed, He. reflexivity.
Qed.

Lemma toy_seed_length_checked : seed_length_checked Toy.provider.
Proof.
  intros seed H. cbn. unfold Toy.toy_from_private_bytes.
  destruct (Nat.eqb_spec (List.length seed) 32); [contradiction|].
  eexists. reflexivity.
Qed.

Lemma ed25519_key_of_other_length_is_invalid_witness :
  seed_length_checked Toy.provider
  /\ bytes_fromhex "07" = inr [x07]
  /\ exists e,
       from_private_bytes Toy.provider [x07] = inl e
       /\ validate_ed25519 Toy.provider Examples.ed_short_seed
          = (Some false, "Ed25519 validation error: " ++ str e).
Proof.
  split; [exact toy_seed_length_checked|]. split; [reflexivity|].
  apply (ed25519_key_of_other_length_is_invalid Toy.provider
           Examples.ed_short_seed (mkFamilyData "07" "" Examples.ed_sig) [x07]
           toy_seed_length_checked eq_refl eq_refl);
    discriminate.
Defined.

(** X13. A claimed [S] above the order [n] that does not verify as given
    never reaches the second verification: with an encoder that refuses
    negative integers, encoding [n - S] raises and the check is Invalid
    with the encoder's message, not with the verification-failed one. *)
Theorem ecdsa_s_above_order_reports_encoder_error (P : CryptoProvider)
    (f : Family) (curve : Curve) (n : Z) (v : Vector) (d : FamilyData)
    (pk : EllipticCurvePublicKey P) (digest : bytes) (r s : Z) :
  encoder_rejects_negative P ->
  encoder_total P ->
  ecdsa_params f = Some (curve, n) ->
  dict_get (family_key f) (signatures (expected v)) = Some d ->
  signature_hex d <> "" ->
  ecdsa_decode P curve (private_key_hex d) (sign_bytes_hex (expected v))
    (signature_hex d) = inr (pk, digest, r, s) ->
  n < s ->
  ~ verifies P pk digest r s ->
  exists e,
    encode_dss_signature P r (n - s) = inl e
    /\ validate P f v
       = (Some false, family_key f ++ " validation error: " ++ str e).
Proof.
  intros Hneg Htot Hf Hd Hne Hdec Hns Hnv.
  destruct (ecdsa_decode_nonneg P _ _ _ _ _ _ _ _ Hdec) as [Hr Hs].
  destruct (Htot r s Hr Hs) as [der Hder].
  destruct (Hneg r (n - s)) as [e He]; [lia|].
  exists e. split; [exact He|].
  rewrite (validate_ecdsa_family P f curve n Hf),
    (validate_ecdsa_present P _ curve n v d Hd Hne), Hdec.
  cbn [bind]. unfold ecdsa_sig_verifies. rewrite Hder. cbn [bind].
  destruct (verify P pk der digest) as [e1|u] eqn:V.
  - rewrite He. reflexivity.
  - exfalso. apply Hnv. exists der. split; [exact Hder|]. eauto.
Qed.

Lemma toy_encoder_rejects_negative : encoder_rejects_negative Toy.provider.
Proof.
  intros r s Hs. cbn. unfold Toy.toy_encode_dss_signature.
  destruct (s <? 0) eqn:E; [|apply Z.ltb_ge in E; lia].
  rewrite orb_true_r. eexists. reflexivity.
Qed.

(** ** Vectors with missing keys *)

Lemma dict_get_to_raw key (sigs : list (string * FamilyData)) :
  dict_get key (map (fun e => (fst e, to_raw_family (snd e))) sigs)
  = option_map to_raw_family (dict_get key sigs).
Proof.
  induction sigs as [|[k d] sigs IH]; [reflexivity|].
  cbn [map dict_get fst snd]. destruct (String.eqb key k); [reflexivity|exact IH].
Qed.

Section RawFacts.

Context (P : CryptoProvider).

Lemma validate_ed25519_raw_to_raw v :
  validate_ed25519_raw P (to_raw v) = validate_ed25519 P v.
Proof.
  unfold validate_ed25519_raw, ed25519_check_raw, validate_ed25519,
    ed25519_check, to_raw.
  cbn [raw_expected raw_signatures raw_sign_bytes_hex getitem raw_bind].
  rewrite dict_get_to_raw.
  destruct (dict_get "ed25519" (signatures (expected v))) as [d|];
    [|reflexivity].
  cbn [option_map to_raw_family raw_private_key_hex raw_signature_hex getitem
       raw_bind].
  unfold bind, ret, lift.
  destruct (ed25519_actual_sig_hex P _ _) as [e|actual]; [reflexivity|].
  cbn [raw_bind]. destruct (String.eqb actual (signature_hex d)); reflexivity.
Qed.

Lemma validate_ecdsa_raw_to_raw key curve n v :
  validate_ecdsa_raw P key curve n (to_raw v) = validate_ecdsa P key curve n v.
Proof.
  unfold validate_ecdsa_raw, ecdsa_check_raw, validate_ecdsa, ecdsa_check, to_raw.
  cbn [raw_expected raw_signatures raw_sign_bytes_hex getitem raw_bind].
  rewrite dict_get_to_raw.
  destruct (dict_get key (signatures (expected v))) as [d|]; [|reflexivity].
  cbn [option_map to_raw_family raw_private_key_hex raw_public_key_hex
       raw_signature_hex getitem raw_bind].
  destruct (String.eqb (signature_hex d) ""); [reflexivity|].
  unfold bind, ret, lift.
  destruct (ecdsa_decode P curve _ _ _) as [e|[[[pk digest] r] s]];
    [reflexivity|].
  cbn [raw_bind].
  destruct (ecdsa_sig_verifies P n pk digest r s) as [e|[|]]; reflexivity.
Qed.

Lemma validate_raw_to_raw f v : validate_raw P f (to_raw v) = validate P f v.
Proof.
  destruct f; cbn [validate_raw validate];
    [apply validate_ed25519_raw_to_raw | apply validate_ecdsa_raw_to_raw ..].
Qed.

Lemma validate_vector_raw_to_raw v :
  validate_vector_raw P (to_raw v) = inr (validate_vector P v).
Proof.
  unfold validate_vector_raw, validate_vector.
  cbn [to_raw raw_name getitem raw_bind].
  fold (to_raw v).
  unfold validate_secp256k1_raw, validate_secp256r1_raw.
  rewrite validate_ed25519_raw_to_raw, !validate_ecdsa_raw_to_raw.
  reflexivity.
Qed.

Lemma run_vector_run_result st v :
  run_vector P st v = run_result st (validate_vector P v).
Proof. destruct st as [res all_passed]. reflexivity. Qed.

Lemma run_loop_raw_to_raw vs : forall st,
  run_loop_raw P (map to_raw vs) st = inr (fold_left (run_vector P) vs st).
Proof.
  induction vs as [|v vs IH]; intros st; [reflexivity|].
  cbn [map run_loop_raw fold_left].
  rewrite validate_vector_raw_to_raw. cbn [raw_bind].
  rewrite IH, run_vector_run_result. reflexivity.
Qed.


End RawFacts.

Lemma ecdsa_s_above_order_reports_encoder_error_witness :
  encoder_rejects_negative Toy.provider
  /\ secp256k1_n < int_from_bytes_big (repeat xff 33)
  /\ validate Toy.provider Secp256k1 MoreExamples.k1_large_s
     = (Some false,
        "secp256k1 validation error: Negative integers are not supported").
Proof.
  split; [exact toy_encoder_rejects_negative|]. split; [reflexivity|].
  assert (Hnv : ~ verifies Toy.provider (1, SECP256K1) (repeat x00 32) 1
                    (int_from_bytes_big (repeat xff 33))).
  { intros (der & Hder & u & Hu). vm_compute in Hder. inversion Hder; subst.
    vm_compute in Hu. discriminate. }
  assert (Hne : MoreExamples.sig_large_s <> "") by discriminate.
  destruct (ecdsa_s_above_order_reports_encoder_error Toy.provider Secp256k1
              SECP256K1 secp256k1_n MoreExamples.k1_large_s
              (mkFamilyData (Examples.hex32 "01") "" MoreExamples.sig_large_s)
              (1, SECP256K1) (repeat x00 32) 1
              (int_from_bytes_big (repeat xff 33))
              toy_encoder_rejects_negative toy_encoder_total
              eq_refl eq_refl Hne eq_refl eq_refl Hnv)
    as (e & He & Hv).
  vm_compute in He. inversion He; subst. exact Hv.
Defined.

(** X14. On vectors that have every key no [KeyError] is raised: the
    three validators, [validate_vector] and [run], written with the
    subscripts of the source, return what they return on the records. *)
Theorem complete_vectors_raise_no_key_error (P : CryptoProvider)
    (vs : list Vector) :
  (forall f v, validate_raw P f (to_raw v) = validate P f v)
  /\ (forall v, validate_vector_raw P (to_raw v) = inr (validate_vector P v))
  /\ run_raw P (map to_raw vs) = inr (run P vs)
  /\ forall json_output,
       main_raw P (Some (map to_raw vs)) json_output
       = inr (main_on_records P (Some vs) json_output).
Proof.
  assert (Hrun : run_raw P (map to_raw vs) = inr (run P vs)).
  { unfold run_raw, run. rewrite run_loop_raw_to_raw. cbn [raw_bind].
    destruct (fold_left (run_vector P) vs (empty_results, true)); reflexivity. }
  split; [apply validate_raw_to_raw|].
  split; [apply validate_vector_raw_to_raw|]. split; [exact Hrun|].
  intros json_output. unfold main_raw, main_on_records. rewrite Hrun. cbn [raw_bind].
  destruct (run P vs) as [success res]. reflexivity.
Qed.



(** X16. A vector that has a name but lacks [expected], or whose
    [expected] lacks [signatures], is not skipped: each of the three checks
    is Invalid with the missing key between quotes as its message, so the
    vector puts three identifiers in [failed] and the run fails. *)
Theorem vector_without_signatures_fails_every_check (P : CryptoProvider)
    (v : RawVector) (nm key : string) :
  raw_name v = Some nm ->
  (raw_expected v = None /\ key = "expected")
  \/ (exists e, raw_expected v = Some e /\ raw_signatures e = None
                /\ key = "signatures") ->
  (forall f,
      validate_raw P f v
      = (Some false, family_label f ++ " validation error: '" ++ key ++ "'"))
  /\ run_raw P [v]
     = inr (false,
            mkResults []
              [nm ++ ":ed25519"; nm ++ ":secp256k1"; nm ++ ":secp256r1"] []).
Proof.
  intros Hn Hk.
  assert (Hv : forall f,
             validate_raw P f v
             = (Some false,
                family_label f ++ " validation error: '" ++ key ++ "'")).
  { intros f.
    destruct Hk as [[He ->]|(e & He & Hs & ->)];
      destruct f; cbn [validate_raw family_label];
      unfold validate_ed25519_raw, ed25519_check_raw, validate_secp256k1_raw,
        validate_secp256r1_raw, validate_ecdsa_raw, ecdsa_check_raw;
      rewrite He; cbn [getitem raw_bind]; rewrite ?Hs; reflexivity. }
  split; [exact Hv|].
  unfold run_raw. cbn [run_loop_raw]. unfold validate_vector_raw.
  rewrite Hn. cbn [getitem raw_bind].
  pose proof (Hv Ed25519) as H1. pose proof (Hv Secp256k1) as H2.
  pose proof (Hv Secp256r1) as H3. cbn [validate_raw] in H1, H2, H3.
  rewrite H1, H2, H3. reflexivity.
Qed.

Lemma vector_without_signatures_fails_every_check_witness :
  raw_name RawExamples.only_name = Some "n"
  /\ raw_expected RawExamples.only_name = None
  /\ run_raw Toy.provider [RawExamples.only_name]
     = inr (false,
            mkResults [] ["n:ed25519"; "n:secp256k1"; "n:secp256r1"] []).
Proof.
  split; [reflexivity|]. split; [reflexivity|].
  exact (proj2 (vector_without_signatures_fails_every_check Toy.provider
                  RawExamples.only_name "n" "expected" eq_refl
                  (or_introl (conj eq_refl eq_refl)))).
Defined.

Lemma dict_get_map_entries {A B : Type} (h : string -> A -> B) key
    (sigs : list (string * A)) :
  dict_get key (map (fun e => (fst e, h (fst e) (snd e))) sigs)
  = option_map (h key) (dict_get key sigs).
Proof.
  induction sigs as [|[k d] sigs IH]; [reflexivity|].
  cbn [map dict_get fst snd]. destruct (String.eqb_spec key k) as [->|];
    [reflexivity | exact IH].
Qed.

(** X17. The ECDSA validators subscript [public_key_hex] although they
    never use its value: an entry that has [private_key_hex] and lacks
    [public_key_hex] is Invalid with the message ['public_key_hex'], even
    when its claimed signature is empty.  The Ed25519 validator does not
    read the key: its result is the same with any [public_key_hex] or with
    none. *)
Theorem ecdsa_requires_public_key_hex_key (P : CryptoProvider) :
  (forall f curve n v e sigs d priv,
      ecdsa_params f = Some (curve, n) ->
      raw_expected v = Some e ->
      raw_signatures e = Some sigs ->
      dict_get (family_key f) sigs = Some d ->
      raw_private_key_hex d = Some priv ->
      raw_public_key_hex d = None ->
      validate_raw P f v
      = (Some false, family_key f ++ " validation error: 'public_key_hex'"))
  /\ (forall g v,
        validate_ed25519_raw P (set_public_keys g v) = validate_ed25519_raw P v).
Proof.
  split.
  - intros f curve n v e sigs d priv Hf He Hs Hd Hp Hpub.
    destruct f; cbn in Hf; inversion Hf; subst;
      cbn [validate_raw family_key] in *;
      unfold validate_secp256k1_raw, validate_secp256r1_raw, validate_ecdsa_raw,
        ecdsa_check_raw;
      rewrite He; cbn [getitem raw_bind]; rewrite Hs; cbn [getitem raw_bind];
      rewrite Hd, Hp; cbn [getitem raw_bind]; rewrite Hpub; reflexivity.
  - intros g v. unfold validate_ed25519_raw, ed25519_check_raw, set_public_keys.
    cbv zeta. cbn [raw_expected].
    destruct (raw_expected v) as [e|]; [|reflexivity].
    cbn [option_map getitem raw_bind raw_signatures raw_sign_bytes_hex].
    destruct (raw_signatures e) as [sigs|]; [|reflexivity].
    cbn [option_map getitem raw_bind].
    rewrite (dict_get_map_entries
               (fun k d => mkRawFamilyData (raw_private_key_hex d)
                             (g k (raw_public_key_hex d))
                             (raw_signature_hex d))).
    destruct (dict_get "ed25519" sigs) as [d|]; reflexivity.
Qed.

Lemma ecdsa_requires_public_key_hex_key_witness :
  raw_signature_hex
    (mkRawFamilyData (Some (Examples.hex32 "01")) None (Some "")) = Some ""
  /\ validate_raw Toy.provider Secp256k1 RawExamples.k1_without_public_key
     = (Some false, "secp256k1 validation error: 'public_key_hex'").
Proof.
  split; [reflexivity|].
  exact (proj1 (ecdsa_requires_public_key_hex_key Toy.provider)
           Secp256k1 SECP256K1 secp256k1_n RawExamples.k1_without_public_key
           (mkRawExpected (Some Examples.zero_digest_hex)
              (Some [("secp256k1",
                      mkRawFamilyData (Some (Examples.hex32 "01")) None
                        (Some ""))]))
           [("secp256k1",
             mkRawFamilyData (Some (Examples.hex32 "01")) None (Some ""))]
           (mkRawFamilyData (Some (Examples.hex32 "01")) None (Some ""))
           (Examples.hex32 "01")
           eq_refl eq_refl eq_refl eq_refl eq_refl eq_refl).
Defined.

(** ** When a check is skipped, and runs that check nothing *)

(** X18. A check is Skipped in exactly two situations: the family is
    absent from [expected.signatures], or the family is one of the two
    ECDSA families and its claimed signature is the empty string.  The
    reason tells which. *)
Theorem skipped_exactly_when_absent_or_empty (P : CryptoProvider)
    (f : Family) (v : Vector) (m : string) :
  outcome_of (validate P f v) = Skipped m <->
  (dict_get (family_key f) (signatures (expected v)) = None
   /\ m = "No " ++ family_key f ++ " signature in vector")
  \/ (f <> Ed25519
      /\ exists d, dict_get (family_key f) (signatures (expected v)) = Some d
                   /\ signature_hex d = ""
                   /\ m = "Empty signature (seed derivation only)").
Proof.
  destruct (dict_get (family_key f) (signatures (expected v))) as [d|] eqn:Hd.
  - destruct f.
    + (* Ed25519: present, hence never skipped *)
      cbn [validate]. pose proof (ed25519_present_not_skipped P v d Hd) as Hn.
      split.
      * intros H. destruct (validate_ed25519 P v) as [[[|]|] m'];
          cbn in H, Hn; discriminate.
      * intros [[H _]|[H _]]; [discriminate | contradiction].
    + destruct (String.eqb_spec (signature_hex d) "") as [E|E].
      * rewrite (ecdsa_empty_signature_skipped P Secp256k1 SECP256K1
                   secp256k1_n v d eq_refl Hd E). cbn. split.
        -- intros H. inversion H; subst. right. split; [discriminate|].
           exists d. auto.
        -- intros [[H _]|(_ & d' & _ & _ & ->)]; [discriminate | reflexivity].
      * cbn [validate]. unfold validate_secp256k1.
        rewrite (validate_ecdsa_present P _ _ _ v d Hd E). split.
        -- intros H. destruct (bind _ _) as [e|[|]]; cbn in H; discriminate.
        -- intros [[H _]|(_ & d' & Hd' & He & _)]; [discriminate|].
           inversion Hd'; subst. contradiction.
    + destruct (String.eqb_spec (signature_hex d) "") as [E|E].
      * rewrite (ecdsa_empty_signature_skipped P Secp256r1 SECP256R1
                   secp256r1_n v d eq_refl Hd E). cbn. split.
        -- intros H. inversion H; subst. right. split; [discriminate|].
           exists d. auto.
        -- intros [[H _]|(_ & d' & _ & _ & ->)]; [discriminate | reflexivity].
      * cbn [validate]. unfold validate_secp256r1.
        rewrite (validate_ecdsa_present P _ _ _ v d Hd E). split.
        -- intros H. destruct (bind _ _) as [e|[|]]; cbn in H; discriminate.
        -- intros [[H _]|(_ & d' & Hd' & He & _)]; [discriminate|].
           inversion Hd'; subst. contradiction.
  - rewrite (absent_family_skipped P f v Hd). cbn. split.
    + intros H. inversion H; subst. left. auto.
    + intros [[_ ->]|(_ & d & Hd' & _)]; [reflexivity | discriminate].
Qed.

(** X19. A run that checks nothing succeeds: when every check of every
    vector is Skipped (in particular when there is no vector), [run]
    returns [True] with [passed] and [failed] empty and the names of all
    vectors, in order, in [skipped], and [main] exits with 0. *)
Theorem run_with_only_skipped_checks_succeeds (P : CryptoProvider)
    (vs : list Vector) (json_output : option string) :
  (forall v f, In v vs -> exists m, outcome_of (validate P f v) = Skipped m) ->
  run P vs = (true, mkResults [] [] (map name vs))
  /\ fst (main_on_records P (Some vs) json_output) = 0.
Proof.
  intros H.
  assert (Hall : forall v, In v vs -> all_skipped P v = true).
  { intros v Hin. unfold all_skipped. apply forallb_forall. intros f _.
    apply is_skipped_outcome. apply H. exact Hin. }
  assert (Hrun : run P vs = (true, mkResults [] [] (map name vs))).
  { rewrite run_spec. clear H.
    assert (Hl : forallb (no_invalid P) vs = true
                 /\ flat_map (passed_of P) vs = []
                 /\ flat_map (failed_of P) vs = []
                 /\ flat_map (skipped_of P) vs = map name vs).
    { induction vs as [|v vs IH]; [cbn; auto|].
      assert (Hv : all_skipped P v = true) by (apply Hall; left; reflexivity).
      destruct (all_skipped_nothing_else P v Hv) as [Hp Hf].
      destruct (IH (fun u Hu => Hall u (or_intror Hu))) as (Hb & Hps & Hfs & Hss).
      cbn [forallb flat_map map]. unfold skipped_of at 1.
      rewrite Hp, Hf, Hv, Hb, Hps, Hfs, Hss.
      rewrite (proj1 (failed_of_nil_iff P v) Hf). cbn. auto. }
    destruct Hl as (Hb & Hps & Hfs & Hss). rewrite Hb, Hps, Hfs, Hss.
    reflexivity. }
  split; [exact Hrun|].
  rewrite main_exit_code, Hrun. reflexivity.
Qed.

Lemma run_with_only_skipped_checks_succeeds_witness :
  run Toy.provider [Examples.no_family; Examples.no_family]
  = (true, mkResults [] [] ["v"; "v"]).
Proof.
  apply (run_with_only_skipped_checks_succeeds Toy.provider
           [Examples.no_family; Examples.no_family] None).
  intros v f [<-|[<-|[]]]; destruct f; eexists; reflexivity.
Defined.

(** ** Runs on vectors that may lack keys *)

Section RawRunFacts.

Context (P : CryptoProvider).






(** [main], case by case. *)
Lemma main_cases file json_output open_error :
  main P file json_output open_error =
    match file with
    | None => inr (1, None)
    | Some (inl e) => inl e
    | Some (inr None) => inl (KeyError "vectors")
    | Some (inr (Some vs)) =>
        match run_raw P vs with
        | inl e => inl e
        | inr (success, res) =>
            match json_output, open_error with
            | Some path, Some e => inl e
            | Some path, None => inr (if success then 0 else 1, Some (path, res))
            | None, _ => inr (if success then 0 else 1, None)
            end
        end
    end.
Proof.
  unfold main, run_loaded.
  destruct file as [[e|[vs|]]|]; cbn [raw_bind getitem]; reflexivity.
Qed.

End RawRunFacts.



(** ** The process: exit status and report *)

Lemma run_raw_to_raw (P : CryptoProvider) (vs : list Vector) :
  run_raw P (map to_raw vs) = inr (run P vs).
Proof.
  unfold run_raw, run. rewrite run_loop_raw_to_raw. cbn [raw_bind].
  destruct (fold_left (run_vector P) vs (empty_results, true)); reflexivity.
Qed.

(** On a vectors file that is missing or loads to vectors that have every
    key, and with a report that can be opened, [main] raises nothing and
    is [main_on_records]. *)
Lemma main_on_complete_records (P : CryptoProvider)
    (file : option (list Vector)) (json_output : option string) :
  main P (option_map (fun vs => inr (Some (map to_raw vs)) : LoadResult) file)
    json_output None
  = inr (main_on_records P file json_output).
Proof.
  rewrite main_cases. destruct file as [vs|]; cbn [option_map]; [|reflexivity].
  rewrite run_raw_to_raw. unfold main_on_records.
  destruct (run P vs) as [success res]. destruct json_output; reflexivity.
Qed.






(** ** Exceptions of a check, on vectors that may lack keys *)







(** ** The exit status of the script *)




(** ** Exceptions and the run *)




(** ** The script as a whole *)


